(** * Strangeness tracking: HyperTracker and StrangenessTracker

    A shallow embedding of
      - Detectors/StrangenessTracking/tracking/src/HyperTracker.cxx
      - Detectors/StrangenessTracking/tracking/include/StrangenessTracking/StrangenessTracker.h
    and the properties of the cluster attachment, the V0 matcher, the vertex
    refit and the truth label that the design document states.

    Conventions.
      - [float] values are IEEE-754 binary32 numbers ([spec_float], with NaN
        and the infinities); TVector3 arithmetic is binary64.
      - An in-place C++ method [bool T::m(args)] on an object passed by
        reference is a function [args -> T -> bool * T]: the flag and the
        object as the call leaves it.
      - Track propagation, detector geometry and the DCA fitter are external
        to these files; they are the fields of the classes [TrackOps] and
        [FitterOps] and of the record [GeometryTGeo]. *)

From Stdlib Require Import ZArith List Bool Lia SpecFloat.
Import ListNotations.
Open Scope Z_scope.

Set Implicit Arguments.

(* ------------------------------------------------------------------ *)
(** ** Floating point *)

Definition float := spec_float.

Module F32.
Definition prec : Z := 24.
Definition emax : Z := 128.
Definition add : float -> float -> float := SFadd prec emax.
Definition sub : float -> float -> float := SFsub prec emax.
Definition mul : float -> float -> float := SFmul prec emax.
(** [ltb a b] is the C++ test [a < b], [gtb a b] is [a > b]; both are
    false as soon as one side is NaN. *)
Definition ltb (a b : float) : bool := SFltb a b.
Definition gtb (a b : float) : bool := SFltb b a.
(** Conversion of an [int] literal. *)
Definition of_int (z : Z) : float := binary_normalize prec emax z 0 false.
Definition zero : float := S754_zero false.
(** [float thick = 0.005] and [0.01]: the double literal rounded to binary32. *)
Definition c0_005 : float := S754_finite false 10737418 (-31).
Definition c0_01 : float := S754_finite false 10737418 (-30).
(** [9.36f] and [2.33f]. *)
Definition c9_36 : float := S754_finite false 9814671 (-20).
Definition c2_33 : float := S754_finite false 9772728 (-22).
Definition is_finite (a : float) : bool :=
  match a with
  | S754_zero _ | S754_finite _ _ _ => true
  | _ => false
  end.
End F32.

Module F64.
Definition prec : Z := 53.
Definition emax : Z := 1024.
Definition add : float -> float -> float := SFadd prec emax.
Definition sub : float -> float -> float := SFsub prec emax.
Definition mul : float -> float -> float := SFmul prec emax.
Definition div : float -> float -> float := SFdiv prec emax.
Definition sqrt : float -> float := SFsqrt prec emax.
Definition gtb (a b : float) : bool := SFltb b a.
Definition zero : float := S754_zero false.
(** The exact conversion float -> double. *)
Definition of_float (a : float) : float :=
  match a with
  | S754_finite s m e => binary_round prec emax s m e
  | _ => a
  end.
End F64.

(** The C++ [int]: 32 bits, two's complement. *)
Definition int_of (z : Z) : Z := (z + 2147483648) mod 4294967296 - 2147483648.

(* ------------------------------------------------------------------ *)
(** ** Data *)

Definition Vec3 : Type := (float * float * float)%type.

(** [std::array<float,3> pV0 = {pP[0] + pN[0], pP[1] + pN[1], pP[2] + pN[2]}] *)
Definition sumMomenta (pP pN : Vec3) : Vec3 :=
  let '(p0, p1, p2) := pP in
  let '(n0, n1, n2) := pN in
  (F32.add p0 n0, F32.add p1 n1, F32.add p2 n2).

(** Modelled from the spec: [o2::BaseCluster<float>] (not among the sources).
    A hit is a position in the local frame of its sensor and the identifier
    of the sensor, which the geometry resolves. *)
Record ITSCluster := mkCluster {
  getSensorID : Z;
  getX : float;
  getY : float;
  getZ : float
}.

(** Modelled from the spec: [o2::its::GeometryTGeo] (not among the sources),
    a read-only lookup from a sensor to the angle of its frame and to its
    layer. *)
Record GeometryTGeo := mkGeom {
  getSensorRefAlpha : Z -> float;
  getLayer : Z -> Z
}.

(** Modelled from the spec: [o2::track::PID] (not among the sources). The
    hypotheses of the hypertriton decay, and the others by their number. *)
Inductive PID := Pion | Proton | Helium3 | HyperTriton | OtherPID (id : Z).

(** Modelled from the spec: [o2::track::TrackParCov]
    (ReconstructionDataFormats/Track.h is not among the sources). A track
    state is its parameters and covariance at a reference surface, [kin],
    which only the propagation code reads, together with the absolute charge
    and the PID hypothesis that the trackers set. *)
Record TrackParCov (Kin : Type) := mkTrack {
  kin : Kin;
  absCharge : Z;
  pid : PID
}.

Definition setAbsCharge {Kin} (q : Z) (t : TrackParCov Kin) : TrackParCov Kin :=
  mkTrack (kin t) (Z.abs q) (pid t).

Definition setPID {Kin} (p : PID) (t : TrackParCov Kin) : TrackParCov Kin :=
  mkTrack (kin t) (absCharge t) p.

(** The propagation and Kalman code, consumed as is. *)
Class TrackOps (Kin : Type) := {
  rotate : float -> TrackParCov Kin -> bool * TrackParCov Kin;
  propagateTo : float -> float -> TrackParCov Kin -> bool * TrackParCov Kin;
  correctForMaterial : float -> float -> TrackParCov Kin -> bool * TrackParCov Kin;
  getPredictedChi2 : TrackParCov Kin -> ITSCluster -> float;
  update : ITSCluster -> TrackParCov Kin -> TrackParCov Kin;
  resetCovariance : TrackParCov Kin -> TrackParCov Kin;
  getPxPyPzGlo : TrackParCov Kin -> Vec3;
  (** sign of the curvature: [1] or [-1] *)
  getSign : TrackParCov Kin -> Z;
  calcR2 : TrackParCov Kin -> float;
  (** the parameters of a track through [xyz] with momentum [pxyz] *)
  kinFromXYZPxPyPz : Vec3 -> Vec3 -> list float -> Z -> PID -> Kin
}.

Definition getCharge {Kin} `{TrackOps Kin} (t : TrackParCov Kin) : Z :=
  if getSign t >? 0 then absCharge t else - absCharge t.

(** Modelled from the spec: [o2::dataformats::V0]
    (ReconstructionDataFormats/V0.h is not among the sources). A decay
    candidate is a track state of its own, the combined candidate, with two
    post-fit daughter states and the identifiers of the original daughters. *)
Record V0 (Kin : Type) := mkV0 {
  v0Track : TrackParCov Kin;
  prong0 : TrackParCov Kin;
  prong1 : TrackParCov Kin;
  prongID0 : Z;
  prongID1 : Z
}.

Definition getProng {Kin} (v : V0 Kin) (i : Z) : TrackParCov Kin :=
  if i =? 0 then prong0 v else prong1 v.

Definition setV0Track {Kin} (t : TrackParCov Kin) (v : V0 Kin) : V0 Kin :=
  mkV0 t (prong0 v) (prong1 v) (prongID0 v) (prongID1 v).

Definition setProng {Kin} (i : Z) (t : TrackParCov Kin) (v : V0 Kin) : V0 Kin :=
  if i =? 0 then mkV0 (v0Track v) t (prong1 v) (prongID0 v) (prongID1 v)
  else mkV0 (v0Track v) (prong0 v) t (prongID0 v) (prongID1 v).

(** Modelled from the spec: the constructor
    [V0(xyz, pxyz, covxyz, trPos, trNeg, posID, negID, pid)]. The fresh
    candidate carries the PID hypothesis it is given and the total charge of
    its two daughters (charge 1 for a charge-2 and a charge-(-1) daughter). *)
Definition V0_ctor {Kin} `{TrackOps Kin} (xyz pxyz : Vec3) (covxyz : list float)
    (trPos trNeg : TrackParCov Kin) (posID negID : Z) (p : PID) : V0 Kin :=
  let q := getCharge trPos + getCharge trNeg in
  mkV0 (mkTrack (kinFromXYZPxPyPz xyz pxyz covxyz q p) (Z.abs q) p)
       trPos trNeg posID negID.

(** Exceptions: [std::runtime_error] (and the classes derived from it), and
    every other exception type. *)
Inductive Exn := RuntimeError | OtherException.

Inductive Outcome (A : Type) :=
  | Normal (a : A)
  | Raised (e : Exn).
Arguments Raised {A} e.

(** [o2::vertexing::DCAFitterN<2>] and [<3>], consumed as is. [process] may
    throw; the other members read what [process] left in the fitter. *)
Class FitterOps (Kin F2 F3 : Type) := {
  process2 : TrackParCov Kin -> TrackParCov Kin -> F2 -> Outcome Z * F2;
  propagateTracksToVertex2 : F2 -> bool * F2;
  getTrack2 : F2 -> Z -> Z -> TrackParCov Kin;
  getPCACandidatePos2 : F2 -> Vec3;
  calcPCACovMatrixFlat2 : F2 -> Z -> list float;
  process3 : TrackParCov Kin -> TrackParCov Kin -> TrackParCov Kin -> F3 -> Outcome Z * F3;
  propagateTracksToVertex3 : F3 -> bool * F3;
  getTrack3 : F3 -> Z -> Z -> TrackParCov Kin;
  getPCACandidatePos3 : F3 -> Vec3;
  calcPCACovMatrixFlat3 : F3 -> Z -> list float
}.

(* ------------------------------------------------------------------ *)
(** ** HyperTracker.cxx *)

Module HyperTracker.

(** The lines written by [LOG(info)]. *)
Inductive LogMsg :=
  | LogOriginalRadius (r2 : float)
  | LogRegenerationFailed
  | LogAttachV0 (layer : Z)
  | LogAttachHe3 (layer : Z)
  | LogFinalRadius (r2 : float).

(** The messages that report an attached cluster. *)
Definition isAttachMsg (m : LogMsg) : bool :=
  match m with
  | LogAttachV0 _ | LogAttachHe3 _ => true
  | _ => false
  end.

Section WithCollaborators.

Context {Kin F2 F3 : Type} {TO : TrackOps Kin} {FO : FitterOps Kin F2 F3}.

(** The members of the class. Those that HyperTracker.h initialises
    ([mMaxChi2], [mBz], [mFitter3Body]) are read from the state. [mInitR2],
    [mMaxChi2] and [mBz] are taken to be [float], [nClusMatching] an [int].
    [infoLog] is the output of [LOG(info)], oldest line first. *)
Record State := mkState {
  hyperTrack : TrackParCov Kin;
  hypV0 : V0 Kin;
  hyperClusters : list ITSCluster;
  geomITS : GeometryTGeo;
  mFitterV0 : F2;
  mFitter3Body : F3;
  mInitR2 : float;
  mMaxChi2 : float;
  mBz : float;
  nClusMatching : Z;
  infoLog : list LogMsg
}.

Definition set_hypV0 (v : V0 Kin) (s : State) : State :=
  mkState (hyperTrack s) v (hyperClusters s) (geomITS s) (mFitterV0 s)
          (mFitter3Body s) (mInitR2 s) (mMaxChi2 s) (mBz s) (nClusMatching s) (infoLog s).

Definition set_mFitterV0 (f : F2) (s : State) : State :=
  mkState (hyperTrack s) (hypV0 s) (hyperClusters s) (geomITS s) f
          (mFitter3Body s) (mInitR2 s) (mMaxChi2 s) (mBz s) (nClusMatching s) (infoLog s).

Definition set_mFitter3Body (f : F3) (s : State) : State :=
  mkState (hyperTrack s) (hypV0 s) (hyperClusters s) (geomITS s) (mFitterV0 s)
          f (mInitR2 s) (mMaxChi2 s) (mBz s) (nClusMatching s) (infoLog s).

Definition set_mInitR2 (r : float) (s : State) : State :=
  mkState (hyperTrack s) (hypV0 s) (hyperClusters s) (geomITS s) (mFitterV0 s)
          (mFitter3Body s) r (mMaxChi2 s) (mBz s) (nClusMatching s) (infoLog s).

(** [setNclusMatching(n)] with its argument converted to [int]. *)
Definition setNclusMatching (n : Z) (s : State) : State :=
  mkState (hyperTrack s) (hypV0 s) (hyperClusters s) (geomITS s) (mFitterV0 s)
          (mFitter3Body s) (mInitR2 s) (mMaxChi2 s) (mBz s) (int_of n) (infoLog s).

Definition logInfo (m : LogMsg) (s : State) : State :=
  mkState (hyperTrack s) (hypV0 s) (hyperClusters s) (geomITS s) (mFitterV0 s)
          (mFitter3Body s) (mInitR2 s) (mMaxChi2 s) (mBz s) (nClusMatching s)
          (infoLog s ++ [m]).

(** [updateTrack(clus, track)]: [track] is passed by reference; the result
    is the returned flag and [track] as the call leaves it. *)
Definition updateTrack (s : State) (clus : ITSCluster) (track : TrackParCov Kin)
    : bool * TrackParCov Kin :=
  let alpha := getSensorRefAlpha (geomITS s) (getSensorID clus) in
  let x := getX clus in
  let layer := getLayer (geomITS s) (getSensorID clus) in
  let thick := if layer <? 3 then F32.c0_005 else F32.c0_01 in
  let '(rotated, t1) := rotate alpha track in
  if rotated then
    let '(propagated, t2) := propagateTo x (mBz s) t1 in
    if propagated then
      let radl := F32.c9_36 in
      let rho := F32.c2_33 in
      let '(corrected, t3) :=
        correctForMaterial thick (F32.mul (F32.mul thick rho) radl) t2 in
      if corrected && F32.ltb (getPredictedChi2 t3 clus) (mMaxChi2 s)
                   && F32.gtb (getPredictedChi2 t3 clus) F32.zero
      then (true, update clus t3)
      else (false, t3)
    else (false, t2)
  else (false, t1).

(** [TVector3::Dot] and [TVector3::Mag] (ROOT), in double precision. *)
Definition tvDot (a b : Vec3) : float :=
  let '(ax, ay, az) := a in
  let '(bx, by_, bz) := b in
  F64.add (F64.add (F64.mul ax bx) (F64.mul ay by_)) (F64.mul az bz).

Definition tvMag (a : Vec3) : float := F64.sqrt (tvDot a a).

Definition toTVector3 (a : Vec3) : Vec3 :=
  let '(ax, ay, az) := a in (F64.of_float ax, F64.of_float ay, F64.of_float az).

Definition calcV0alpha (v0 : V0 Kin) : float :=
  let fPmom := getPxPyPzGlo (getProng v0 0) in
  let fNmom := getPxPyPzGlo (getProng v0 1) in
  let fV0mom := getPxPyPzGlo (v0Track v0) in
  let momNeg := toTVector3 fNmom in
  let momPos := toTVector3 fPmom in
  let momTot := toTVector3 fV0mom in
  let lQlNeg := F64.div (tvDot momNeg momTot) (tvMag momTot) in
  let lQlPos := F64.div (tvDot momPos momTot) (tvMag momTot) in
  F64.div (F64.sub lQlPos lQlNeg) (F64.add lQlPos lQlNeg).

(** [recreateV0(posTrack, negTrack, posID, negID)]. Only
    [std::runtime_error] is caught. *)
Definition recreateV0 (posTrack negTrack : TrackParCov Kin) (posID negID : Z)
    (s : State) : Outcome bool * State :=
  let cand := 0 in
  let '(r, f) := process2 posTrack negTrack (mFitterV0 s) in
  let s1 := set_mFitterV0 f s in
  match r with
  | Raised RuntimeError => (Normal false, s1)
  | Raised e => (Raised e, s1)
  | Normal nCand =>
    if nCand =? 0 then (Normal false, s1)
    else
      let '(_, f') := propagateTracksToVertex2 f in
      let propPos := getTrack2 f' 0 0 in
      let propNeg := getTrack2 f' 1 0 in
      let v0XYZ := getPCACandidatePos2 f' in
      let pP := getPxPyPzGlo propPos in
      let pN := getPxPyPzGlo propNeg in
      let pV0 := sumMomenta pP pN in
      let v := V0_ctor v0XYZ pV0 (calcPCACovMatrixFlat2 f' cand)
                       propPos propNeg posID negID HyperTriton in
      let v := setV0Track (setAbsCharge 1 (v0Track v)) v in
      let v := setV0Track (setPID HyperTriton (v0Track v)) v in
      (Normal true, set_hypV0 v (set_mFitterV0 f' s1))
  end.

Definition Refit3Body (s : State) : Outcome bool * State :=
  let cand := 0 in
  let '(r, f) :=
    process3 (v0Track (hypV0 s)) (getProng (hypV0 s) 0) (getProng (hypV0 s) 1)
             (mFitter3Body s) in
  let s1 := set_mFitter3Body f s in
  match r with
  | Raised RuntimeError => (Normal false, s1)
  | Raised e => (Raised e, s1)
  | Normal nCand =>
    if nCand =? 0 then (Normal false, s1)
    else
      let '(_, f') := propagateTracksToVertex3 f in
      let propPos := getTrack3 f' 1 0 in
      let propNeg := getTrack3 f' 2 0 in
      let v0XYZ := getPCACandidatePos3 f' in
      let pP := getPxPyPzGlo propPos in
      let pN := getPxPyPzGlo propNeg in
      let pV0 := sumMomenta pP pN in
      let v := V0_ctor v0XYZ pV0 (calcPCACovMatrixFlat3 f' cand)
                       propPos propNeg (prongID0 (hypV0 s)) (prongID1 (hypV0 s))
                       HyperTriton in
      let v := setV0Track (setAbsCharge 1 (v0Track v)) v in
      (Normal true, set_hypV0 v (set_mFitter3Body f' s1))
  end.

(** *** The matcher: [process()] *)

(** The locals of [process()] next to the tracker itself. *)
Record Locals := mkLocals {
  tracker : State;
  ITSclusV0 : list ITSCluster;
  isProcessed : Z;
  tryDaughter : bool
}.

(** How one pass through the body of the first loop ends: at the end of the
    body or at [continue], at a [return false], or with an exception that
    leaves [process()]. *)
Inductive Step :=
  | Continue (st : Locals)
  | ReturnFalse (st : Locals)
  | Throws (e : Exn) (st : Locals).

Definition diffR2 (s : State) (clus : ITSCluster) : float :=
  F32.sub (F32.sub (mInitR2 s) (F32.mul (getX clus) (getX clus)))
          (F32.mul (getY clus) (getY clus)).

(** [updateTrack(clus, hypV0)]: the flag, and the tracker with [hypV0] as the
    call leaves it. *)
Definition updateV0 (clus : ITSCluster) (s : State) : bool * State :=
  let '(ok, t) := updateTrack s clus (v0Track (hypV0 s)) in
  (ok, set_hypV0 (setV0Track t (hypV0 s)) s).

(** The index of the prong that [he3track] refers to. *)
Definition he3Index (v : V0 Kin) : Z :=
  if F64.gtb (calcV0alpha v) F64.zero then 0 else 1.

(** [updateTrack(clus, he3track)], [he3track] a reference into [hypV0]. *)
Definition updateHe3 (clus : ITSCluster) (s : State) : bool * State :=
  let i := he3Index (hypV0 s) in
  let '(ok, t) := updateTrack s clus (getProng (hypV0 s) i) in
  (ok, set_hypV0 (setProng i t (hypV0 s)) s).

(** Lines 73-80, the body of [if (diffR2 > -4)]. *)
Definition v0Branch (clus : ITSCluster) (st : Locals) : Locals :=
  let '(ok, s1) := updateV0 clus (tracker st) in
  if ok then
    mkLocals (logInfo (LogAttachV0 (getLayer (geomITS s1) (getSensorID clus))) s1)
             (ITSclusV0 st ++ [clus])
             (int_of (isProcessed st + 1))
             false
  else mkLocals s1 (ITSclusV0 st) (isProcessed st) (tryDaughter st).

(** Lines 84-90, the body of [if (diffR2 < 4 && tryDaughter == true)]. *)
Definition he3Branch (clus : ITSCluster) (st : Locals) : Step :=
  let '(ok, s1) := updateHe3 clus (tracker st) in
  if negb ok then
    ReturnFalse (mkLocals s1 (ITSclusV0 st) (isProcessed st) (tryDaughter st))
  else
    let '(r, s2) := recreateV0 (getProng (hypV0 s1) 0) (getProng (hypV0 s1) 1)
                               (prongID0 (hypV0 s1)) (prongID1 (hypV0 s1)) s1 in
    match r with
    | Raised e => Throws e (mkLocals s2 (ITSclusV0 st) (isProcessed st) (tryDaughter st))
    | Normal _ =>
        Continue
          (mkLocals (logInfo (LogAttachHe3 (getLayer (geomITS s2) (getSensorID clus))) s2)
                    (ITSclusV0 st)
                    (int_of (isProcessed st + 1))
                    (tryDaughter st))
    end.

(** The test of line 83, on the locals as the first branch leaves them. *)
Definition he3Guard (d : float) (st : Locals) : bool :=
  F32.ltb d (F32.of_int 4) && Bool.eqb (tryDaughter st) true.

(** Lines 70-93, one pass through the body of the first loop. *)
Definition loopBody (clus : ITSCluster) (st : Locals) : Step :=
  let d := diffR2 (tracker st) clus in
  let st1 := if F32.gtb d (F32.of_int (-4)) then v0Branch clus st else st in
  if he3Guard d st1 then he3Branch clus st1
  else if isProcessed st1 =? 0 then ReturnFalse st1
  else Continue st1.

(** [for (auto& clus : hyperClusters)], lines 69-94. *)
Fixpoint attachLoop (clusters : list ITSCluster) (st : Locals) : Step :=
  match clusters with
  | [] => Continue st
  | clus :: rest =>
      match loopBody clus st with
      | Continue st' => attachLoop rest st'
      | stop => stop
      end
  end.

(** [for (auto& clus : ITSclusV0)], lines 100-103; the flag is false at a
    [return false]. *)
Fixpoint refitLoop (clusters : list ITSCluster) (s : State) : bool * State :=
  match clusters with
  | [] => (true, s)
  | clus :: rest =>
      let '(ok, s1) := updateV0 clus s in
      if negb ok then (false, s1) else refitLoop rest s1
  end.

(** Lines 97-104. *)
Definition secondPass (st : Locals) : bool * State :=
  let s := tracker st in
  if 0 <? Z.of_nat (length (ITSclusV0 st)) then
    let s1 := set_hypV0 (setV0Track (resetCovariance (v0Track (hypV0 s))) (hypV0 s)) s in
    refitLoop (rev (ITSclusV0 st)) s1
  else (true, s).

(** Lines 107-111. *)
Definition finalRefit (isProc : Z) (s : State) : Outcome bool * State :=
  let '(r, s1) := Refit3Body s in
  match r with
  | Raised e => (Raised e, s1)
  | Normal refitted =>
      if negb refitted then (Normal false, s1)
      else (Normal (nClusMatching s1 <=? isProc),
            logInfo (LogFinalRadius (calcR2 (v0Track (hypV0 s1)))) s1)
  end.

Definition initLocals (s : State) : Locals := mkLocals s [] 0 true.

Definition process (s : State) : Outcome bool * State :=
  match attachLoop (hyperClusters s) (initLocals s) with
  | ReturnFalse st => (Normal false, tracker st)
  | Throws e st => (Raised e, tracker st)
  | Continue st =>
      let '(ok, s1) := secondPass st in
      if negb ok then (Normal false, s1)
      else finalRefit (isProcessed st) s1
  end.


(** The first constructor, which is given a fitter. [dflt] holds the members
    as HyperTracker.h initialises them. *)
Definition HyperTracker_ctor (dflt : State) (motherTrack : TrackParCov Kin)
    (v0 : V0 Kin) (motherClusters : list ITSCluster) (gman : GeometryTGeo)
    (fitterV0 : F2) : Outcome unit * State :=
  let s := mkState motherTrack (hypV0 dflt) motherClusters gman fitterV0
                   (mFitter3Body dflt) (mInitR2 dflt) (mMaxChi2 dflt) (mBz dflt)
                   (nClusMatching dflt) (infoLog dflt) in
  let s := set_mInitR2 (calcR2 (v0Track v0)) s in
  let s := logInfo (LogOriginalRadius (calcR2 (v0Track v0))) s in
  let posTrack := getProng v0 0 in
  let negTrack := getProng v0 1 in
  let alphaV0 := calcV0alpha v0 in
  let posTrack := if F64.gtb alphaV0 F64.zero then setAbsCharge 2 posTrack else posTrack in
  let negTrack := if F64.gtb alphaV0 F64.zero then negTrack else setAbsCharge 2 negTrack in
  let '(isRecr, s) := recreateV0 posTrack negTrack (prongID0 v0) (prongID1 v0) s in
  match isRecr with
  | Raised e => (Raised e, s)
  | Normal recr =>
      let s := if negb recr then set_hypV0 v0 (logInfo LogRegenerationFailed s) else s in
      (Normal tt, setNclusMatching (Z.of_nat (length motherClusters)) s)
  end.

(** The second constructor, without a fitter. *)
Definition HyperTracker_ctor' (dflt : State) (motherTrack : TrackParCov Kin)
    (v0 : V0 Kin) (motherClusters : list ITSCluster) (gman : GeometryTGeo) : State :=
  let s := mkState motherTrack v0 motherClusters gman (mFitterV0 dflt)
                   (mFitter3Body dflt) (mInitR2 dflt) (mMaxChi2 dflt) (mBz dflt)
                   (nClusMatching dflt) (infoLog dflt) in
  setNclusMatching (Z.of_nat (length motherClusters)) s.

End WithCollaborators.

End HyperTracker.

(* ------------------------------------------------------------------ *)
(** ** StrangenessTracker.h *)

(** [struct ClusAttachments { std::array<unsigned int, 7> arr; }]: one slot
    per ITS layer. *)
Record ClusAttachments := mkClusAttachments {
  arr : list Z
}.

(** What a slot says, after the comment on [mClusAttachments]: "-1 not
    attached, 0 for the mother, > 0 for the daughters"; as an
    [unsigned int], -1 is 4294967295. *)
Inductive Owner :=
  | Unattached
  | OwnedByMother
  | OwnedByDaughter (n : Z).

Definition ownerOf (slot : Z) : Owner :=
  if slot =? 0 then OwnedByMother
  else if slot =? 4294967295 then Unattached
  else OwnedByDaughter slot.

Definition isDaughter (o : Owner) : bool :=
  match o with
  | OwnedByDaughter _ => true
  | _ => false
  end.

(** Modelled from the spec: [o2::its::TrackITS] (DataFormatsITS/TrackITS.h
    is not among the sources), as far as the label needs it: the per-layer
    hit-presence and truth-fake flags of the upstream track. *)
Record TrackITS := mkTrackITS {
  hasHitOnLayer : nat -> bool;
  isFakeOnLayer : nat -> bool
}.

(** Modelled from the spec: [o2::MCCompLabel] (not among the sources): the
    truth identifier of a track, with a fake-hit flag. *)
Record MCCompLabel := mkLabel {
  truthID : Z;
  fakeFlag : bool
}.

Definition setFakeFlag (v : bool) (l : MCCompLabel) : MCCompLabel :=
  mkLabel (truthID l) v.

Module StrangenessTracker.

Section WithCollaborators.

Context {Kin F2 F3 : Type} {TO : TrackOps Kin} {FO : FitterOps Kin F2 F3}.

(** The members that [recreateV0] and [getStrangeTrackLabel] use. *)
Record State := mkState {
  mMCTruthON : bool;
  mITSTrkLabels : list MCCompLabel;
  mBz : float;
  mFitterV0 : F2;
  mITSRef : nat;              (* mStrangeTrack.mITSRef *)
  mStructClus : ClusAttachments;
  mITStrack : TrackITS;
  mV0dauIDs : Z * Z
}.

Definition set_mFitterV0 (f : F2) (s : State) : State :=
  mkState (mMCTruthON s) (mITSTrkLabels s) (mBz s) f (mITSRef s)
          (mStructClus s) (mITStrack s) (mV0dauIDs s).

(** [recreateV0(posTrack, negTrack, newV0)]: the result, [newV0] as the call
    leaves it, and the tracker. *)
Definition recreateV0 (posTrack negTrack : TrackParCov Kin) (newV0 : V0 Kin)
    (s : State) : Outcome bool * V0 Kin * State :=
  let '(r, f) := process2 posTrack negTrack (mFitterV0 s) in
  let s1 := set_mFitterV0 f s in
  match r with
  | Raised RuntimeError => (Normal false, newV0, s1)
  | Raised e => (Raised e, newV0, s1)
  | Normal nCand =>
    if nCand =? 0 then (Normal false, newV0, s1)
    else
      let '(propagated, f') := propagateTracksToVertex2 f in
      let s2 := set_mFitterV0 f' s1 in
      if negb propagated then (Normal false, newV0, s2)
      else
        let v0XYZ := getPCACandidatePos2 f' in
        let propPos := getTrack2 f' 0 0 in
        let propNeg := getTrack2 f' 1 0 in
        let pP := getPxPyPzGlo propPos in
        let pN := getPxPyPzGlo propNeg in
        let pV0 := sumMomenta pP pN in
        (Normal true,
         V0_ctor v0XYZ pV0 (calcPCACovMatrixFlat2 f' 0) propPos propNeg
                 (fst (mV0dauIDs s)) (snd (mV0dauIDs s)) HyperTriton,
         s2)
  end.

(** The test inside the loop of [getStrangeTrackLabel]. *)
Definition fakeOnLayer (s : State) (iLay : nat) : bool :=
  hasHitOnLayer (mITStrack s) iLay && isFakeOnLayer (mITStrack s) iLay
  && (nth iLay (arr (mStructClus s)) 0 =? 0).

(** [for (iLay = 0; iLay < 7; iLay++) { if (...) { isFake = true; break; } }],
    with [n] layers left from [iLay] on. *)
Fixpoint scanLayers (s : State) (n iLay : nat) : bool :=
  match n with
  | O => false
  | S n' => if fakeOnLayer s iLay then true else scanLayers s n' (S iLay)
  end.

(** [getStrangeTrackLabel()]. [mITSTrkLabels] is a [gsl::span]: an index out
    of range ends the program, and there is no label. *)
Definition getStrangeTrackLabel (s : State) : option MCCompLabel :=
  match nth_error (mITSTrkLabels s) (mITSRef s) with
  | None => None
  | Some itsTrkLab =>
      let isFake := scanLayers s 7 0 in
      Some (setFakeFlag isFake itsTrkLab)
  end.

End WithCollaborators.

End StrangenessTracker.

(* ------------------------------------------------------------------ *)
(** ** A small implementation of the collaborators

    Enough of a propagator, a geometry and a fitter to run the trackers on
    concrete candidates. *)

Module Toy.

Definition f1 : float := S754_finite false 8388608 (-23).
Definition f2 : float := S754_finite false 8388608 (-22).
Definition f3 : float := S754_finite false 12582912 (-22).
Definition f40 : float := S754_finite false 10485760 (-18).
Definition f100 : float := S754_finite false 13107200 (-17).

(** The parameters of a toy track: its frame, its curvature sign, its
    momentum, the clusters it was updated with, and whether its covariance
    was reset. *)
Record Kin := mkKin {
  tAlpha : float;
  tX : float;
  tSign : Z;
  tMom : Vec3;
  tHits : list ITSCluster;
  tReset : bool
}.

Definition onKin (f : Kin -> Kin) (t : TrackParCov Kin) : TrackParCov Kin :=
  mkTrack (f (kin t)) (absCharge t) (pid t).

(** Rotation and propagation fail, leaving the track as it is, on a frame
    angle or a radius that is not finite. The predicted chi-square of a
    cluster is its z coordinate. *)
#[global] Instance trackOps : TrackOps Kin := {
  rotate alpha t :=
    if F32.is_finite alpha
    then (true, onKin (fun k => mkKin alpha (tX k) (tSign k) (tMom k) (tHits k) (tReset k)) t)
    else (false, t);
  propagateTo x bz t :=
    if F32.is_finite x
    then (true, onKin (fun k => mkKin (tAlpha k) x (tSign k) (tMom k) (tHits k) (tReset k)) t)
    else (false, t);
  correctForMaterial x2x0 xrho t := (true, t);
  getPredictedChi2 t clus := getZ clus;
  update clus t :=
    onKin (fun k => mkKin (tAlpha k) (tX k) (tSign k) (tMom k) (tHits k ++ [clus]) (tReset k)) t;
  resetCovariance t :=
    onKin (fun k => mkKin (tAlpha k) (tX k) (tSign k) (tMom k) (tHits k) true) t;
  getPxPyPzGlo t := tMom (kin t);
  getSign t := tSign (kin t);
  calcR2 t := F32.mul (tX (kin t)) (tX (kin t));
  kinFromXYZPxPyPz xyz pxyz cov q p :=
    mkKin F32.zero (fst (fst xyz)) (if q <? 0 then -1 else 1) pxyz [] false
}.

(** A fitter that answers [process] with a fixed outcome and hands back the
    tracks it was given. *)
Record Fitter := mkFitter {
  answer : Outcome Z;
  reaches : bool;
  given : list (TrackParCov Kin)
}.

Definition noTrack : TrackParCov Kin :=
  mkTrack (mkKin F32.zero F32.zero 1 (F32.zero, F32.zero, F32.zero) [] false) 0 Pion.

#[global] Instance fitterOps : FitterOps Kin Fitter Fitter := {
  process2 a b f := (answer f, mkFitter (answer f) (reaches f) [a; b]);
  propagateTracksToVertex2 f := (reaches f, f);
  getTrack2 f i cand := nth (Z.to_nat i) (given f) noTrack;
  getPCACandidatePos2 f := (F32.zero, F32.zero, F32.zero);
  calcPCACovMatrixFlat2 f cand := [];
  process3 v a b f := (answer f, mkFitter (answer f) (reaches f) [v; a; b]);
  propagateTracksToVertex3 f := (reaches f, f);
  getTrack3 f i cand := nth (Z.to_nat i) (given f) noTrack;
  getPCACandidatePos3 f := (F32.zero, F32.zero, F32.zero);
  calcPCACovMatrixFlat3 f cand := []
}.

(** Sensor [n] sits on layer [n]; every sensor frame is at angle 1. *)
Definition geom : GeometryTGeo := mkGeom (fun _ => f1) (fun id => id).

Definition track (sign q : Z) (px : float) : TrackParCov Kin :=
  mkTrack (mkKin F32.zero F32.zero sign (px, F32.zero, F32.zero) [] false) q Pion.

(** A V0 with a positive and a negative daughter of charge 1; the positive
    one carries the larger momentum. *)
Definition v0 : V0 Kin :=
  mkV0 (track 1 0 f3) (track 1 1 f2) (track (-1) 1 f1) 10 11.

(** A cluster of sensor [id] at local [x], with predicted chi-square [chi2]. *)
Definition cluster (id : Z) (x chi2 : float) : ITSCluster :=
  mkCluster id x F32.zero chi2.

Definition fitOK : Fitter := mkFitter (Normal 1) true [].
Definition fitNone : Fitter := mkFitter (Normal 0) true [].
Definition fitThrows : Fitter := mkFitter (Raised RuntimeError) true [].
Definition fitStuck : Fitter := mkFitter (Normal 1) false [].

(** A tracker on [clusters] with decay radius squared [r2], the chi-square
    cut at 40 and [n] clusters to match. *)
Definition hyperTracker (clusters : list ITSCluster) (r2 : float) (n : Z)
    (fit2 fit3 : Fitter) : @HyperTracker.State Kin Fitter Fitter :=
  HyperTracker.mkState (track 1 1 f3) v0 clusters geom fit2 fit3 r2 f40 f1 n [].

Definition strangenessTracker (fit : Fitter) (labels : list MCCompLabel)
    (ref : nat) (att : list Z) (trk : TrackITS) : @StrangenessTracker.State Fitter :=
  StrangenessTracker.mkState true labels f1 fit ref (mkClusAttachments att) trk (10, 11).

End Toy.

(* ------------------------------------------------------------------ *)
(** ** Vocabulary of the statements *)

Section Vocabulary.

Context {Kin F2 F3 : Type} {TO : TrackOps Kin} {FO : FitterOps Kin F2 F3}.

Import HyperTracker.

#[local] Abbreviation State := (@HyperTracker.State Kin F2 F3).
#[local] Abbreviation Locals := (@HyperTracker.Locals Kin F2 F3).

(** The three propagation steps of a cluster attachment, each on the track
    as the step before left it, and the chi-square that the gate reads. *)
Definition sensorThickness (s : State) (clus : ITSCluster) : float :=
  if getLayer (geomITS s) (getSensorID clus) <? 3 then F32.c0_005 else F32.c0_01.

Definition rotation (s : State) (clus : ITSCluster) (t : TrackParCov Kin) :=
  rotate (getSensorRefAlpha (geomITS s) (getSensorID clus)) t.

Definition propagation (s : State) (clus : ITSCluster) (t : TrackParCov Kin) :=
  propagateTo (getX clus) (mBz s) (snd (rotation s clus t)).

Definition materialCorrection (s : State) (clus : ITSCluster) (t : TrackParCov Kin) :=
  correctForMaterial (sensorThickness s clus)
    (F32.mul (F32.mul (sensorThickness s clus) F32.c2_33) F32.c9_36)
    (snd (propagation s clus t)).

Definition gateChi2 (s : State) (clus : ITSCluster) (t : TrackParCov Kin) : float :=
  getPredictedChi2 (snd (materialCorrection s clus t)) clus.

(** The locals after lines 73-80 of [process()]. *)
Definition afterV0Branch (clus : ITSCluster) (st : Locals) : Locals :=
  if F32.gtb (diffR2 (tracker st) clus) (F32.of_int (-4)) then v0Branch clus st else st.

(** The hit is attached to the V0: the first branch is entered and its
    [updateTrack] accepts. *)
Definition v0Attached (clus : ITSCluster) (st : Locals) : bool :=
  F32.gtb (diffR2 (tracker st) clus) (F32.of_int (-4))
  && fst (updateV0 clus (tracker st)).

(** The single-daughter branch is entered at this hit. *)
Definition he3Tried (clus : ITSCluster) (st : Locals) : bool :=
  he3Guard (diffR2 (tracker st) clus) (afterV0Branch clus st).

(** The hit is attached to the daughter. *)
Definition he3Attached (clus : ITSCluster) (st : Locals) : bool :=
  he3Tried clus st && fst (updateHe3 clus (tracker (afterV0Branch clus st))).

(** The number of lines of the log that report an attached cluster. *)
Definition attachedIn (log : list LogMsg) : Z :=
  Z.of_nat (length (filter isAttachMsg log)).

(** The clusters that [process()] attached, counted on the lines it logged. *)
Definition attachedHits (before after : State) : Z :=
  attachedIn (infoLog after) - attachedIn (infoLog before).

(** The number of hits that [updateTrack] accepts in the first loop, on the
    V0 or on the daughter, each hit being tried on the locals that the hits
    before it left; the count ends where the loop ends. *)
Fixpoint acceptedHits (clusters : list ITSCluster) (st : Locals) : Z :=
  match clusters with
  | [] => 0
  | clus :: rest =>
      (if v0Attached clus st || he3Attached clus st then 1 else 0)
      + match loopBody clus st with
        | Continue st' => acceptedHits rest st'
        | ReturnFalse _ => 0
        | Throws _ _ => 0
        end
  end.

(** The covariance reset of line 98. *)
Definition resetV0Covariance (s : State) : State :=
  set_hypV0 (setV0Track (resetCovariance (v0Track (hypV0 s))) (hypV0 s)) s.


(** Two tracker states with the same configuration and the same log. *)
Definition sameSetup (s s' : State) : Prop :=
  hyperClusters s' = hyperClusters s
  /\ geomITS s' = geomITS s
  /\ mInitR2 s' = mInitR2 s
  /\ mMaxChi2 s' = mMaxChi2 s
  /\ mBz s' = mBz s
  /\ nClusMatching s' = nClusMatching s.

End Vocabulary.

(** [Subseq l1 l2]: [l1] is [l2] with some elements left out. *)
Inductive Subseq {A : Type} : list A -> list A -> Prop :=
  | Subseq_nil : Subseq [] []
  | Subseq_skip x l1 l2 : Subseq l1 l2 -> Subseq l1 (x :: l2)
  | Subseq_keep x l1 l2 : Subseq l1 l2 -> Subseq (x :: l1) (x :: l2).

(* ------------------------------------------------------------------ *)
(** ** Candidates on which the trackers are run *)

Module Scenario.

Import Toy.

(** Two clusters well inside the decay radius (squared, 100), the outer one
    stored first; both are compatible with the V0. *)
Definition cOuter : ITSCluster := cluster 1 f3 f1.
Definition cInner : ITSCluster := cluster 0 f2 f1.
Definition matched : @HyperTracker.State Kin Fitter Fitter :=
  hyperTracker [cOuter; cInner] f100 2 fitOK fitOK.

(** A cluster whose local x is NaN: the rotation succeeds, the propagation
    does not. *)
Definition cNaN : ITSCluster := cluster 0 S754_nan f1.

(** A cluster with predicted chi-square 0, which the gate refuses. *)
Definition cZeroChi2 : ITSCluster := cluster 1 f3 F32.zero.

(** The first cluster is refused by the V0 and is too far inside the decay
    radius for the daughter; the second one is compatible with the V0. *)
Definition firstRefused : @HyperTracker.State Kin Fitter Fitter :=
  hyperTracker [cZeroChi2; cInner] f100 2 fitOK fitOK.

(** Decay radius squared 4: the clusters at x = 2 are in the band of the
    daughter as well. The first is attached to the V0, the second is refused
    by the V0 and, the fallback flag being cleared, not tried on the daughter. *)
Definition cBand : ITSCluster := cluster 0 f2 f1.
Definition cBandRefused : ITSCluster := cluster 1 f2 F32.zero.
Definition v0ThenRefused : @HyperTracker.State Kin Fitter Fitter :=
  hyperTracker [cBand; cBandRefused] (F32.of_int 4) 2 fitOK fitOK.

(** The same band with a first cluster that both the V0 and the daughter
    refuse. *)
Definition daughterRefused : @HyperTracker.State Kin Fitter Fitter :=
  hyperTracker [cBandRefused; cBand] (F32.of_int 4) 2 fitOK fitOK.

(** The fitter finds no candidate, or throws. *)
Definition noCandidate : @HyperTracker.State Kin Fitter Fitter :=
  hyperTracker [cOuter; cInner] f100 2 fitNone fitNone.
Definition fitterThrows : @HyperTracker.State Kin Fitter Fitter :=
  hyperTracker [cOuter; cInner] f100 2 fitThrows fitThrows.

(** An upstream track with hits on layers 0, 1 and 2, the one on layer 1
    fake; layers 0 and 1 belong to the mother, layer 2 to daughter 1. *)
Definition itsTrack : TrackITS :=
  mkTrackITS (fun l => (l <? 3)%nat) (fun l => (l =? 1)%nat).
Definition attachments : list Z :=
  [0; 0; 1; 4294967295; 4294967295; 4294967295; 4294967295].
Definition labelled (fit : Fitter) : @StrangenessTracker.State Fitter :=
  strangenessTracker fit [mkLabel 7 false; mkLabel 42 false] 1%nat attachments itsTrack.

(** The same track and labels when the fake hit of layer 1 is attached to
    nothing: its slot holds the mark of an unattached layer. *)
Definition attachmentsOpen : list Z :=
  [0; 4294967295; 1; 4294967295; 4294967295; 4294967295; 4294967295].
Definition labelledOpen (fit : Fitter) : @StrangenessTracker.State Fitter :=
  strangenessTracker fit [mkLabel 7 false; mkLabel 42 false] 1%nat attachmentsOpen itsTrack.

(** Two daughters of charge +1 and -1, as a V0 finder delivers them. *)
Definition posTrack : TrackParCov Kin := track 1 1 f2.
Definition negTrack : TrackParCov Kin := track (-1) 1 f1.

(** The locals of a first loop that ran to its end over [clusters]. *)
Definition localsAfter (clusters : list ITSCluster)
    (s : @HyperTracker.State Kin Fitter Fitter) : @HyperTracker.Locals Kin Fitter Fitter :=
  match HyperTracker.attachLoop clusters (HyperTracker.initLocals s) with
  | HyperTracker.Continue st => st
  | HyperTracker.ReturnFalse st => st
  | HyperTracker.Throws _ st => st
  end.

(** The candidate [matched] when three clusters are asked for. *)
Definition oneShort : @HyperTracker.State Kin Fitter Fitter :=
  hyperTracker [cOuter; cInner] f100 3 fitOK fitOK.

(** The locals of [matched] and of [oneShort] after their first loop. *)
Definition matchedLocals : @HyperTracker.Locals Kin Fitter Fitter :=
  localsAfter [cOuter; cInner] matched.
Definition oneShortLocals : @HyperTracker.Locals Kin Fitter Fitter :=
  localsAfter [cOuter; cInner] oneShort.

End Scenario.

(* ------------------------------------------------------------------ *)
(** ** StrangenessTracker.h: the clusters of a track, cluster sizes, masses *)

Module TrackInput.

(** [v[i]] on a [gsl::span], where a failed bounds check ends the program,
    and on a [std::vector], where an index out of range is undefined: there
    is a value for an index in range only. *)
Definition at_index {A : Type} (v : list A) (i : Z) : option A :=
  if i <? 0 then None else nth_error v (Z.to_nat i).

(** [v[i] = x] on a [std::vector]. *)
Fixpoint write_at {A : Type} (v : list A) (i : nat) (x : A) : option (list A) :=
  match v, i with
  | [], _ => None
  | _ :: rest, O => Some (x :: rest)
  | y :: rest, S i' =>
      match write_at rest i' x with
      | Some rest' => Some (y :: rest')
      | None => None
      end
  end.

(** The members that [getTrackClusters] and [getTrackClusterSizes] read;
    [firstClusterEntry] and [numberOfClusters] are
    [mITStrack.getFirstClusterEntry()] and [mITStrack.getNumberOfClusters()],
    both [int]. *)
Record Input := mkInput {
  mInputITSclusters : list ITSCluster;
  mInputClusterSizes : list Z;
  mInputITSidxs : list Z;
  firstClusterEntry : Z;
  numberOfClusters : Z
}.

(** [for (int icl = 0; icl < ncl; icl++)
       outVec.push_back(store[mInputITSidxs[firstClus + icl]]);]
    with [n] passes left from [icl] on. *)
Fixpoint gather {A : Type} (store : list A) (idxs : list Z) (firstClus : Z)
    (n : nat) (icl : Z) (outVec : list A) : option (list A) :=
  match n with
  | O => Some outVec
  | S n' =>
      match at_index idxs (int_of (firstClus + icl)) with
      | None => None
      | Some k =>
          match at_index store k with
          | None => None
          | Some c => gather store idxs firstClus n' (icl + 1) (outVec ++ [c])
          end
      end
  end.

Definition getTrackClusters (d : Input) : option (list ITSCluster) :=
  gather (mInputITSclusters d) (mInputITSidxs d) (firstClusterEntry d)
         (Z.to_nat (numberOfClusters d)) 0 [].

Definition getTrackClusterSizes (d : Input) : option (list Z) :=
  gather (mInputClusterSizes d) (mInputITSidxs d) (firstClusterEntry d)
         (Z.to_nat (numberOfClusters d)) 0 [].

(** [o2::itsmft::CompClusterExt], as far as [getClusterSizes] reads it, and
    [o2::itsmft::TopologyDictionary], a read-only lookup. *)
Record CompClusterExt := mkCompCluster {
  getPatternID : Z
}.

Record TopologyDictionary := mkDict {
  isGroup : Z -> bool;
  getNpixels : Z -> Z
}.

Section ClusterSizes.

(** The stream of pattern bytes that [pattIt] walks, and
    [ClusterPattern::acquirePattern] followed by [getNPixels]: the number of
    pixels of the pattern at the head of the stream, and the stream behind
    it. [InvalidPatternID] is [CompCluster::InvalidPatternID]. *)
Context {Stream : Type}.
Variable acquirePattern : Stream -> Z * Stream.
Variable InvalidPatternID : Z.

(** The test of the [if]: the pattern is read from the stream. *)
Definition fromStream (mdict : TopologyDictionary) (clus : CompClusterExt) : bool :=
  (getPatternID clus =? InvalidPatternID) || isGroup mdict (getPatternID clus).

(** The loop of [getClusterSizes], from cluster [iClus] on. *)
Fixpoint sizesLoop (mdict : TopologyDictionary) (ITSclus : list CompClusterExt)
    (iClus : nat) (clusSizeVec : list Z) (pattIt : Stream)
    : option (list Z * Stream) :=
  match ITSclus with
  | [] => Some (clusSizeVec, pattIt)
  | clus :: rest =>
      let pattID := getPatternID clus in
      let '(npix, pattIt') :=
        if (pattID =? InvalidPatternID) || isGroup mdict pattID
        then acquirePattern pattIt
        else (getNpixels mdict pattID, pattIt) in
      match write_at clusSizeVec iClus npix with
      | None => None
      | Some vec' => sizesLoop mdict rest (S iClus) vec' pattIt'
      end
  end.

(** [getClusterSizes(clusSizeVec, ITSclus, pattIt, mdict)]: the vector and
    the iterator as the call leaves them. *)
Definition getClusterSizes (clusSizeVec : list Z) (ITSclus : list CompClusterExt)
    (pattIt : Stream) (mdict : TopologyDictionary) : option (list Z * Stream) :=
  sizesLoop mdict ITSclus 0 clusSizeVec pattIt.

(** The stream after [n] patterns were read from it. *)
Fixpoint skipPatterns (n : nat) (pattIt : Stream) : Stream :=
  match n with
  | O => pattIt
  | S n' => skipPatterns n' (snd (acquirePattern pattIt))
  end.

End ClusterSizes.

(** [calcMotherMass]; [getMass2] is [PID::getMass2]. *)
Definition calcMotherMass (getMass2 : PID -> float)
    (p2Mother p2DauFirst p2DauSecond : float) (pidDauFirst pidDauSecond : PID) : float :=
  let m2DauFirst := getMass2 pidDauFirst in
  let m2DauSecond := getMass2 pidDauSecond in
  let motherE := F64.add (F64.sqrt (F64.add p2DauFirst m2DauFirst))
                         (F64.sqrt (F64.add p2DauSecond m2DauSecond)) in
  let e2Mother := F64.mul motherE motherE in
  F64.sqrt (F64.sub e2Mother p2Mother).

End TrackInput.

(* ------------------------------------------------------------------ *)
(** ** Further vocabulary *)

Section MoreVocabulary.

Context {Kin F2 F3 : Type} {TO : TrackOps Kin} {FO : FitterOps Kin F2 F3}.

Import HyperTracker.

#[local] Abbreviation State := (@HyperTracker.State Kin F2 F3).
#[local] Abbreviation Locals := (@HyperTracker.Locals Kin F2 F3).

(** The locals with which a pass or a loop ends, however it ends. *)
Definition localsOf (r : @Step Kin F2 F3) : Locals :=
  match r with
  | Continue st => st
  | ReturnFalse st => st
  | Throws _ st => st
  end.

(** [process()] returns false before it reaches the final refit: the first
    loop does not run to its end, or the second pass fails. *)
Definition rejectedBeforeRefit (s : State) : Prop :=
  match attachLoop (hyperClusters s) (initLocals s) with
  | Continue st => fst (secondPass st) = false
  | ReturnFalse _ => True
  | Throws _ _ => False
  end.

(** The layer of a cluster. *)
Definition layerOf (s : State) (clus : ITSCluster) : Z :=
  getLayer (geomITS s) (getSensorID clus).

(** The candidate refers to the same two daughters. *)
Definition sameProngIDs (v v' : V0 Kin) : Prop :=
  prongID0 v' = prongID0 v /\ prongID1 v' = prongID1 v.

(** Two tracker states with the same configuration, the same mother track
    and a candidate that refers to the same two daughters. *)
Definition sameCandidate (s s' : State) : Prop :=
  sameSetup s s'
  /\ hyperTrack s' = hyperTrack s
  /\ sameProngIDs (hypV0 s) (hypV0 s').

(** The total momentum of the V0 is zero in each component. *)
Definition zeroMomentum (v : V0 Kin) : Prop :=
  exists sx sy sz : bool,
    getPxPyPzGlo (v0Track v) = (S754_zero sx, S754_zero sy, S754_zero sz).

End MoreVocabulary.

(** A float that is a zero or NaN. *)
Definition zeroOrNaN (a : float) : bool :=
  match a with
  | S754_zero _ | S754_nan => true
  | _ => false
  end.

Module MoreScenarios.

Import Toy.

(** Five stored clusters; the track owns three of them, from entry 1 of the
    index table on. *)
Definition store : list ITSCluster :=
  [cluster 0 f1 f1; cluster 1 f2 f1; cluster 2 f3 f1; cluster 3 f40 f1; cluster 4 f100 f1].
Definition trackInput : TrackInput.Input :=
  TrackInput.mkInput store [10; 20; 30; 40; 50] [0; 4; 2; 1; 3] 1 3.

(** The same track with an index table that points outside the store. *)
Definition brokenInput : TrackInput.Input :=
  TrackInput.mkInput store [10; 20; 30; 40; 50] [0; 4; 7; 1; 3] 1 3.

(** A pattern stream of pixel counts, one per pattern; pattern 9 is a group
    of the dictionary, 255 the invalid identifier. *)
Definition acquire (stream : list Z) : Z * list Z :=
  match stream with
  | [] => (0, [])
  | n :: rest => (n, rest)
  end.
Definition dict : TrackInput.TopologyDictionary :=
  TrackInput.mkDict (fun id => id =? 9) (fun id => id + 1).
Definition compClusters : list TrackInput.CompClusterExt :=
  [TrackInput.mkCompCluster 3; TrackInput.mkCompCluster 255;
   TrackInput.mkCompCluster 9; TrackInput.mkCompCluster 5].

(** A V0 at rest: its total momentum is zero. *)
Definition v0AtRest : V0 Kin :=
  mkV0 (track 1 0 F32.zero) (track 1 1 f2) (track (-1) 1 f1) 10 11.

(** A tracker without clusters, as the second constructor builds it. *)
Definition noClusters : @HyperTracker.State Kin Fitter Fitter :=
  HyperTracker.HyperTracker_ctor' (hyperTracker [] f100 5 fitOK fitOK)
    (track 1 1 f3) v0 [] geom.

(** Decay radius squared 4. The first cluster, at x = 3, lies outside the
    band of the V0 and is attached to the daughter; the second, at x = 2, is
    attached to the V0. *)
Definition cDaughterOnly : ITSCluster := cluster 1 f3 f1.
Definition daughterThenV0 : @HyperTracker.State Kin Fitter Fitter :=
  hyperTracker [cDaughterOnly; Scenario.cBand] (F32.of_int 4) 2 fitOK fitOK.

(** About the masses squared of the pion and of helium-3, in double
    precision, for [PID::getMass2]. *)
Definition mass2 (p : PID) : float :=
  match p with
  | Helium3 => S754_finite false 8877468750281298 (-50)
  | _ => S754_finite false 5614157041035757 (-58)
  end.

(** The tracker [Scenario.matched] with the chi-square cut at 100, and a
    cluster with predicted chi-square 40, the cut of [Scenario.matched]. *)
Definition looseCut : @HyperTracker.State Kin Fitter Fitter :=
  HyperTracker.mkState (track 1 1 f3) v0 [Scenario.cOuter; Scenario.cInner] geom
    fitOK fitOK f100 f100 f1 2 [].
Definition cAtCut : ITSCluster := cluster 1 f3 f40.

End MoreScenarios.

(* ------------------------------------------------------------------ *)
(** ** Properties of the cluster attachment *)

Unset Implicit Arguments.

Lemma int_of_small (z : Z) : -2147483648 <= z < 2147483648 -> int_of z = z.
Proof.
  intros Hz. unfold int_of.
  rewrite Z.mod_small by lia. lia.
Qed.

(** Plus infinity is below nothing, and NaN compares with nothing. *)
Lemma ltb_not_finite (chi2 cut : float) :
  F32.is_finite chi2 = false ->
  F32.ltb chi2 cut && F32.gtb chi2 F32.zero = false.
Proof.
  intros Hnf. unfold F32.ltb, F32.gtb, SFltb.
  destruct chi2 as [sg|sg| |sg m e]; try discriminate Hnf.
  - destruct sg.
    + rewrite andb_false_r. reflexivity.
    + destruct cut as [sc|sc| |sc mc ec]; try reflexivity.
      destruct sc; reflexivity.
  - reflexivity.
Qed.

Section AttachmentProperties.

Context {Kin F2 F3 : Type} {TO : TrackOps Kin} {FO : FitterOps Kin F2 F3}.

Import HyperTracker.

#[local] Abbreviation State := (@HyperTracker.State Kin F2 F3).

(** [updateTrack] in terms of its steps. *)
Lemma updateTrack_steps (s : State) (clus : ITSCluster) (t : TrackParCov Kin) :
  updateTrack s clus t =
  if fst (rotation s clus t) then
    if fst (propagation s clus t) then
      if fst (materialCorrection s clus t)
         && F32.ltb (gateChi2 s clus t) (mMaxChi2 s)
         && F32.gtb (gateChi2 s clus t) F32.zero
      then (true, update clus (snd (materialCorrection s clus t)))
      else (false, snd (materialCorrection s clus t))
    else (false, snd (propagation s clus t))
  else (false, snd (rotation s clus t)).
Proof.
  unfold updateTrack, gateChi2, materialCorrection, propagation, rotation,
    sensorThickness.
  destruct (rotate _ t) as [r t1]; cbn [fst snd].
  destruct r; [|reflexivity].
  destruct (propagateTo _ _ t1) as [p t2]; cbn [fst snd].
  destruct p; [|reflexivity].
  destruct (correctForMaterial _ _ t2) as [m t3]; cbn [fst snd].
  reflexivity.
Qed.

(** C1. [updateTrack] accepts the hit exactly when the rotation to the
    sensor frame, the propagation to the sensor and the material correction
    all succeed and the predicted chi-square of the hit against the state so
    obtained is strictly above 0 and strictly below [mMaxChi2]. On acceptance
    the track is that state updated with the hit. A chi-square that is not
    above 0, or not finite, is rejected whatever the cut. *)
Theorem updateTrack_accepts_iff (s : State) (clus : ITSCluster) (t : TrackParCov Kin) :
  (fst (updateTrack s clus t) = true <->
     fst (rotation s clus t) = true
     /\ fst (propagation s clus t) = true
     /\ fst (materialCorrection s clus t) = true
     /\ F32.gtb (gateChi2 s clus t) F32.zero = true
     /\ F32.ltb (gateChi2 s clus t) (mMaxChi2 s) = true)
  /\ (fst (updateTrack s clus t) = true ->
      snd (updateTrack s clus t) = update clus (snd (materialCorrection s clus t)))
  /\ (F32.gtb (gateChi2 s clus t) F32.zero = false
      \/ F32.is_finite (gateChi2 s clus t) = false ->
      fst (updateTrack s clus t) = false).
Proof.
  rewrite updateTrack_steps.
  pose proof (ltb_not_finite (gateChi2 s clus t) (mMaxChi2 s)) as Hnf.
  destruct (fst (rotation s clus t)); cbn [fst snd];
    [|repeat split; intros; try discriminate; tauto].
  destruct (fst (propagation s clus t)); cbn [fst snd];
    [|repeat split; intros; try discriminate; tauto].
  destruct (fst (materialCorrection s clus t)); cbn [andb fst snd];
    [|repeat split; intros; try discriminate; tauto].
  destruct (F32.ltb (gateChi2 s clus t) (mMaxChi2 s));
    destruct (F32.gtb (gateChi2 s clus t) F32.zero); cbn [andb fst snd];
    repeat split; intros; try discriminate; tauto.
Qed.

(** C2, as amended. When [updateTrack] rejects the hit it does not apply the
    Kalman update, and it leaves the caller's track as the last step that ran
    left it: as the rotation left it when the rotation fails, rotated and as
    the propagation left it when the propagation fails, and rotated,
    propagated and as the material correction left it when the material
    correction or the chi-square gate fails. *)
Theorem updateTrack_rejected_track (s : State) (clus : ITSCluster) (t : TrackParCov Kin) :
  fst (updateTrack s clus t) = false ->
  snd (updateTrack s clus t) =
    if negb (fst (rotation s clus t)) then snd (rotation s clus t)
    else if negb (fst (propagation s clus t)) then snd (propagation s clus t)
    else snd (materialCorrection s clus t).
Proof.
  rewrite updateTrack_steps.
  destruct (fst (rotation s clus t)); cbn [negb fst snd]; [|reflexivity].
  destruct (fst (propagation s clus t)); cbn [negb fst snd]; [|reflexivity].
  destruct (_ && _ && _); cbn [fst snd]; [discriminate|reflexivity].
Qed.

End AttachmentProperties.

(** On the toy propagator, a hit with chi-square 1 is accepted under the cut
    of 40 and appended to the hits of the track. *)
Lemma updateTrack_accepts_iff_witness :
  fst (HyperTracker.updateTrack Scenario.matched Scenario.cOuter (v0Track Toy.v0)) = true
  /\ Toy.tHits (kin (snd (HyperTracker.updateTrack Scenario.matched Scenario.cOuter
                            (v0Track Toy.v0)))) = [Scenario.cOuter].
Proof.
  pose proof (updateTrack_accepts_iff Scenario.matched Scenario.cOuter (v0Track Toy.v0))
    as [Hiff [Hupd _]].
  assert (Hacc : fst (HyperTracker.updateTrack Scenario.matched Scenario.cOuter
                        (v0Track Toy.v0)) = true).
  { apply Hiff. repeat split; vm_compute; reflexivity. }
  split; [exact Hacc|].
  rewrite (Hupd Hacc). vm_compute. reflexivity.
Defined.

(** C2, the counterexample. The hit [cZeroChi2] is rejected at the
    chi-square gate, and the caller's track is not what it was: it has been
    rotated to the frame of the sensor and propagated to its radius. The hit
    [cNaN] is rejected because its propagation fails, and the caller's track
    has been rotated. *)
Lemma updateTrack_rejection_modifies_track :
  fst (HyperTracker.updateTrack Scenario.matched Scenario.cZeroChi2 (v0Track Toy.v0)) = false
  /\ snd (HyperTracker.updateTrack Scenario.matched Scenario.cZeroChi2 (v0Track Toy.v0))
     <> v0Track Toy.v0
  /\ Toy.tX (kin (snd (HyperTracker.updateTrack Scenario.matched Scenario.cZeroChi2
                         (v0Track Toy.v0)))) = Toy.f3
  /\ fst (HyperTracker.updateTrack Scenario.matched Scenario.cNaN (v0Track Toy.v0)) = false
  /\ snd (HyperTracker.updateTrack Scenario.matched Scenario.cNaN (v0Track Toy.v0))
     <> v0Track Toy.v0.
Proof.
  repeat split; try (vm_compute; reflexivity);
    vm_compute; intros H; discriminate H.
Qed.

Lemma updateTrack_rejected_track_witness :
  fst (HyperTracker.updateTrack Scenario.matched Scenario.cNaN (v0Track Toy.v0)) = false
  /\ Toy.tAlpha (kin (snd (HyperTracker.updateTrack Scenario.matched Scenario.cNaN
                             (v0Track Toy.v0)))) = Toy.f1.
Proof.
  assert (Hrej : fst (HyperTracker.updateTrack Scenario.matched Scenario.cNaN
                        (v0Track Toy.v0)) = false) by (vm_compute; reflexivity).
  split; [exact Hrej|].
  rewrite (updateTrack_rejected_track Scenario.matched Scenario.cNaN (v0Track Toy.v0) Hrej).
  vm_compute. reflexivity.
Defined.

(* ------------------------------------------------------------------ *)
(** ** Properties of the matcher *)

Section MatcherProperties.

Context {Kin F2 F3 : Type} {TO : TrackOps Kin} {FO : FitterOps Kin F2 F3}.

Import HyperTracker.

#[local] Abbreviation State := (@HyperTracker.State Kin F2 F3).
#[local] Abbreviation Locals := (@HyperTracker.Locals Kin F2 F3).

Lemma sameSetup_refl (s : State) : sameSetup s s.
Proof. repeat split. Qed.

Lemma sameSetup_trans (s1 s2 s3 : State) :
  sameSetup s1 s2 -> sameSetup s2 s3 -> sameSetup s1 s3.
Proof.
  unfold sameSetup. intros (A1 & A2 & A3 & A4 & A5 & A6) (B1 & B2 & B3 & B4 & B5 & B6).
  repeat split; congruence.
Qed.

Lemma updateV0_setup (clus : ITSCluster) (s : State) :
  sameSetup s (snd (updateV0 clus s))
  /\ infoLog (snd (updateV0 clus s)) = infoLog s.
Proof.
  unfold updateV0. destruct (updateTrack s clus _) as [ok t]. cbn.
  repeat split.
Qed.

Lemma updateHe3_setup (clus : ITSCluster) (s : State) :
  sameSetup s (snd (updateHe3 clus s))
  /\ infoLog (snd (updateHe3 clus s)) = infoLog s.
Proof.
  unfold updateHe3. destruct (updateTrack s clus _) as [ok t]. cbn.
  repeat split.
Qed.

Lemma recreateV0_setup (p n : TrackParCov Kin) (pI nI : Z) (s : State) :
  sameSetup s (snd (recreateV0 p n pI nI s))
  /\ infoLog (snd (recreateV0 p n pI nI s)) = infoLog s.
Proof.
  unfold recreateV0. destruct (process2 p n (mFitterV0 s)) as [r f].
  destruct r as [nCand|e].
  - destruct (nCand =? 0); [cbn; repeat split|].
    destruct (propagateTracksToVertex2 f) as [b f']. cbn. repeat split.
  - destruct e; cbn; repeat split.
Qed.

Lemma Refit3Body_setup (s : State) :
  sameSetup s (snd (Refit3Body s))
  /\ infoLog (snd (Refit3Body s)) = infoLog s.
Proof.
  unfold Refit3Body. destruct (process3 _ _ _ (mFitter3Body s)) as [r f].
  destruct r as [nCand|e].
  - destruct (nCand =? 0); [cbn; repeat split|].
    destruct (propagateTracksToVertex3 f) as [b f']. cbn. repeat split.
  - destruct e; cbn; repeat split.
Qed.

Lemma refitLoop_setup (clusters : list ITSCluster) (s : State) :
  sameSetup s (snd (refitLoop clusters s))
  /\ infoLog (snd (refitLoop clusters s)) = infoLog s.
Proof.
  revert s. induction clusters as [|clus rest IH]; intros s; cbn [refitLoop].
  - split; [apply sameSetup_refl|reflexivity].
  - pose proof (updateV0_setup clus s) as [Hs Hl].
    destruct (updateV0 clus s) as [ok s1]. cbn [fst snd] in *.
    destruct ok; cbn [negb].
    + destruct (IH s1) as [Hs' Hl']. split.
      * eapply sameSetup_trans; eassumption.
      * congruence.
    + split; assumption.
Qed.

Lemma diffR2_setup (s s' : State) (clus : ITSCluster) :
  sameSetup s s' -> diffR2 s' clus = diffR2 s clus.
Proof.
  intros (_ & _ & H & _). unfold diffR2. rewrite H. reflexivity.
Qed.

Lemma attachedIn_app (l : list LogMsg) (m : LogMsg) :
  attachedIn (l ++ [m]) = attachedIn l + (if isAttachMsg m then 1 else 0).
Proof.
  unfold attachedIn. rewrite filter_app, length_app. cbn [filter].
  destruct (isAttachMsg m); cbn [length]; lia.
Qed.

(** *** One pass through the body of the first loop *)

Lemma loopBody_steps (clus : ITSCluster) (st : Locals) :
  loopBody clus st =
  if he3Tried clus st then he3Branch clus (afterV0Branch clus st)
  else if isProcessed (afterV0Branch clus st) =? 0
       then ReturnFalse (afterV0Branch clus st)
       else Continue (afterV0Branch clus st).
Proof. reflexivity. Qed.

Lemma afterV0Branch_cases (clus : ITSCluster) (st : Locals) :
  sameSetup (tracker st) (tracker (afterV0Branch clus st))
  /\ if v0Attached clus st
     then tryDaughter (afterV0Branch clus st) = false
          /\ ITSclusV0 (afterV0Branch clus st) = ITSclusV0 st ++ [clus]
          /\ isProcessed (afterV0Branch clus st) = int_of (isProcessed st + 1)
          /\ attachedIn (infoLog (tracker (afterV0Branch clus st)))
             = attachedIn (infoLog (tracker st)) + 1
     else tryDaughter (afterV0Branch clus st) = tryDaughter st
          /\ ITSclusV0 (afterV0Branch clus st) = ITSclusV0 st
          /\ isProcessed (afterV0Branch clus st) = isProcessed st
          /\ infoLog (tracker (afterV0Branch clus st)) = infoLog (tracker st).
Proof.
  unfold afterV0Branch, v0Attached, v0Branch.
  destruct (F32.gtb _ _); cbn [andb].
  - pose proof (updateV0_setup clus (tracker st)) as [Hs Hl].
    destruct (updateV0 clus (tracker st)) as [ok s1]. cbn [fst snd] in *.
    destruct ok; cbn [tracker tryDaughter ITSclusV0 isProcessed].
    + split.
      * destruct Hs as (A1 & A2 & A3 & A4 & A5 & A6). repeat split; assumption.
      * repeat split. cbn [logInfo infoLog]. rewrite attachedIn_app, Hl. reflexivity.
    + repeat split; try assumption; apply Hs.
  - split; [apply sameSetup_refl|repeat split].
Qed.

Lemma he3Branch_cases (clus : ITSCluster) (st1 : Locals) :
  match he3Branch clus st1 with
  | ReturnFalse _ => fst (updateHe3 clus (tracker st1)) = false
  | Throws _ _ => fst (updateHe3 clus (tracker st1)) = true
  | Continue st' =>
      fst (updateHe3 clus (tracker st1)) = true
      /\ sameSetup (tracker st1) (tracker st')
      /\ tryDaughter st' = tryDaughter st1
      /\ ITSclusV0 st' = ITSclusV0 st1
      /\ isProcessed st' = int_of (isProcessed st1 + 1)
      /\ attachedIn (infoLog (tracker st')) = attachedIn (infoLog (tracker st1)) + 1
  end.
Proof.
  unfold he3Branch.
  pose proof (updateHe3_setup clus (tracker st1)) as [Hs Hl].
  destruct (updateHe3 clus (tracker st1)) as [ok s1]. cbn [fst snd] in *.
  destruct ok; cbn [negb]; [|reflexivity].
  pose proof (recreateV0_setup (getProng (hypV0 s1) 0) (getProng (hypV0 s1) 1)
                (prongID0 (hypV0 s1)) (prongID1 (hypV0 s1)) s1) as [Hs' Hl'].
  destruct (recreateV0 _ _ _ _ s1) as [r s2]. cbn [fst snd] in *.
  destruct r as [b|e]; [|reflexivity].
  cbn [tracker tryDaughter ITSclusV0 isProcessed].
  split; [reflexivity|]. split.
  - pose proof (sameSetup_trans _ _ _ Hs Hs') as (A1 & A2 & A3 & A4 & A5 & A6).
    repeat split; assumption.
  - repeat split. cbn [logInfo infoLog]. rewrite attachedIn_app, Hl', Hl. reflexivity.
Qed.

(** The fallback flag is never set again. *)
Lemma he3Tried_needs_flag (clus : ITSCluster) (st : Locals) :
  he3Tried clus st = true ->
  tryDaughter st = true /\ v0Attached clus st = false.
Proof.
  unfold he3Tried, he3Guard. intros H.
  apply andb_true_iff in H as [_ H]. apply Bool.eqb_prop in H.
  pose proof (afterV0Branch_cases clus st) as [_ Hc].
  destruct (v0Attached clus st).
  - destruct Hc as [Hc _]. congruence.
  - destruct Hc as [Hc _]. split; congruence.
Qed.

(** What a pass that reaches the next hit has done. *)
Lemma loopBody_Continue (clus : ITSCluster) (st st' : Locals) :
  loopBody clus st = Continue st' ->
  sameSetup (tracker st) (tracker st')
  /\ (tryDaughter st = false -> tryDaughter st' = false)
  /\ (v0Attached clus st = true -> tryDaughter st' = false)
  /\ (ITSclusV0 st' = if v0Attached clus st then ITSclusV0 st ++ [clus] else ITSclusV0 st)
  /\ ((isProcessed st' = int_of (isProcessed st + 1)
       /\ attachedIn (infoLog (tracker st')) = attachedIn (infoLog (tracker st)) + 1)
      \/ (isProcessed st' = isProcessed st /\ isProcessed st <> 0
          /\ attachedIn (infoLog (tracker st')) = attachedIn (infoLog (tracker st)))).
Proof.
  rewrite loopBody_steps. intros Hb.
  pose proof (afterV0Branch_cases clus st) as [Hs Hc].
  destruct (he3Tried clus st) eqn:Htried.
  - apply he3Tried_needs_flag in Htried as [Hflag Hv0]. rewrite Hv0 in *.
    destruct Hc as (C1 & C2 & C3 & C4).
    pose proof (he3Branch_cases clus (afterV0Branch clus st)) as Hh.
    rewrite Hb in Hh. destruct Hh as (_ & D1 & D2 & D3 & D4 & D5).
    split; [eapply sameSetup_trans; eassumption|].
    split; [congruence|]. split; [discriminate|]. split; [congruence|].
    left. split; [congruence|]. unfold attachedIn in *. rewrite D5, C4. reflexivity.
  - destruct (isProcessed (afterV0Branch clus st) =? 0) eqn:Hz; [discriminate|].
    apply Z.eqb_neq in Hz. injection Hb as <-.
    split; [assumption|].
    destruct (v0Attached clus st).
    + destruct Hc as (C1 & C2 & C3 & C4).
      split; [auto|]. split; [auto|]. split; [assumption|]. left. split; assumption.
    + destruct Hc as (C1 & C2 & C3 & C4).
      split; [congruence|]. split; [discriminate|]. split; [assumption|].
      right. split; [assumption|]. split; [congruence|]. rewrite C4. reflexivity.
Qed.

(** *** The first loop *)

Lemma attachLoop_app (pre post : list ITSCluster) (st : Locals) :
  attachLoop (pre ++ post) st =
  match attachLoop pre st with
  | Continue st' => attachLoop post st'
  | stop => stop
  end.
Proof.
  revert st. induction pre as [|clus pre IH]; intros st; cbn [app attachLoop].
  - reflexivity.
  - destruct (loopBody clus st); try reflexivity. apply IH.
Qed.

Lemma attachLoop_Continue_prefix (pre post : list ITSCluster) (st st' : Locals) :
  attachLoop (pre ++ post) st = Continue st' ->
  exists mid, attachLoop pre st = Continue mid /\ attachLoop post mid = Continue st'.
Proof.
  rewrite attachLoop_app. intros H.
  destruct (attachLoop pre st) as [mid|mid|e mid]; try discriminate.
  exists mid. split; [reflexivity|assumption].
Qed.

(** Along a loop that runs to its end: the configuration stays, a cleared
    flag stays cleared, the counter counts the logged attachments, and
    [ITSclusV0] grows by clusters of the track, in their order. *)
Lemma attachLoop_Continue (clusters : list ITSCluster) (st st' : Locals) :
  attachLoop clusters st = Continue st' ->
  0 <= isProcessed st ->
  isProcessed st + Z.of_nat (length clusters) < 2147483648 ->
  sameSetup (tracker st) (tracker st')
  /\ (tryDaughter st = false -> tryDaughter st' = false)
  /\ isProcessed st <= isProcessed st' <= isProcessed st + Z.of_nat (length clusters)
  /\ (clusters <> [] -> 0 < isProcessed st')
  /\ attachedIn (infoLog (tracker st')) - attachedIn (infoLog (tracker st))
     = isProcessed st' - isProcessed st
  /\ exists added, ITSclusV0 st' = ITSclusV0 st ++ added /\ Subseq added clusters.
Proof.
  revert st. induction clusters as [|clus rest IH]; intros st Hl Hpos Hlt.
  - cbn in Hl. injection Hl as <-.
    split; [apply sameSetup_refl|]. split; [auto|]. split; [cbn; lia|].
    split; [congruence|]. split; [lia|].
    exists []. split; [symmetry; apply app_nil_r|constructor].
  - cbn [attachLoop] in Hl. cbn [length] in Hlt.
    destruct (loopBody clus st) as [st1|st1|e st1] eqn:Hb; try discriminate.
    apply loopBody_Continue in Hb as (B1 & B2 & B3 & B4 & B5).
    assert (Hstep : isProcessed st <= isProcessed st1 <= isProcessed st + 1
                    /\ 0 < isProcessed st1
                    /\ attachedIn (infoLog (tracker st1)) - attachedIn (infoLog (tracker st))
                       = isProcessed st1 - isProcessed st).
    { destruct B5 as [[E1 E2]|(E1 & E2 & E3)].
      - rewrite int_of_small in E1 by lia. lia.
      - lia. }
    destruct Hstep as (S1 & S2 & S3).
    destruct (IH st1 Hl) as (I1 & I2 & I3 & I4 & I5 & added & I6 & I7); [lia|lia|].
    split; [eapply sameSetup_trans; eassumption|].
    split; [auto|]. cbn [length]. split; [lia|]. split; [intros _; lia|]. split; [lia|].
    rewrite I6, B4. destruct (v0Attached clus st).
    + exists (clus :: added). split; [rewrite <- app_assoc; reflexivity|].
      apply Subseq_keep. assumption.
    + exists added. split; [reflexivity|]. apply Subseq_skip. assumption.
Qed.

Lemma attachLoop_flag (clusters : list ITSCluster) (st st' : Locals) :
  attachLoop clusters st = Continue st' ->
  tryDaughter st = false -> tryDaughter st' = false.
Proof.
  revert st. induction clusters as [|clus rest IH]; intros st Hl Hf.
  - cbn in Hl. congruence.
  - cbn [attachLoop] in Hl.
    destruct (loopBody clus st) as [st1|st1|e st1] eqn:Hb; try discriminate.
    apply loopBody_Continue in Hb as (_ & B2 & _). eauto.
Qed.

Lemma he3Branch_refused (clus : ITSCluster) (st1 : Locals) :
  fst (updateHe3 clus (tracker st1)) = false ->
  he3Branch clus st1 =
  ReturnFalse (mkLocals (snd (updateHe3 clus (tracker st1)))
                        (ITSclusV0 st1) (isProcessed st1) (tryDaughter st1)).
Proof.
  unfold he3Branch. destruct (updateHe3 clus (tracker st1)) as [ok s1].
  cbn [fst snd]. intros ->. reflexivity.
Qed.

(** [process()] on a track whose first loop stops at the hit [clus]. *)
Lemma process_stops_at (s : State) (pre post : list ITSCluster) (clus : ITSCluster)
    (st st1 : Locals) :
  hyperClusters s = pre ++ clus :: post ->
  attachLoop pre (initLocals s) = Continue st ->
  loopBody clus st = ReturnFalse st1 ->
  process s = (Normal false, tracker st1).
Proof.
  intros Hc Hpre Hb. unfold process.
  rewrite Hc, attachLoop_app, Hpre. cbn [attachLoop]. rewrite Hb. reflexivity.
Qed.


(** C4. When the branch of the single daughter is entered at a hit and its
    [updateTrack] fails, [process()] returns false there. When a hit is
    attached to the V0, the fallback flag is cleared, the daughter branch is
    not entered at that hit, and it is not entered at any later hit of the
    track. *)
Theorem he3_failure_rejects_and_v0_clears_fallback (s : State)
    (pre post : list ITSCluster) (clus : ITSCluster) (st : Locals) :
  hyperClusters s = pre ++ clus :: post ->
  attachLoop pre (initLocals s) = Continue st ->
  (he3Tried clus st = true -> he3Attached clus st = false ->
     exists st1, loopBody clus st = ReturnFalse st1
                 /\ process s = (Normal false, tracker st1))
  /\ (v0Attached clus st = true ->
        tryDaughter (afterV0Branch clus st) = false
        /\ he3Tried clus st = false
        /\ forall (st' : Locals) (mid rest : list ITSCluster) (later : ITSCluster)
                  (st'' : Locals),
             loopBody clus st = Continue st' ->
             post = mid ++ later :: rest ->
             attachLoop mid st' = Continue st'' ->
             tryDaughter st'' = false /\ he3Tried later st'' = false).
Proof.
  intros Hc Hpre. split.
  - intros Htried Hatt. unfold he3Attached in Hatt. rewrite Htried in Hatt.
    cbn [andb] in Hatt.
    eexists. split.
    + rewrite loopBody_steps, Htried. apply he3Branch_refused. exact Hatt.
    + eapply process_stops_at; [exact Hc|exact Hpre|].
      rewrite loopBody_steps, Htried. apply he3Branch_refused. exact Hatt.
  - intros Hv0.
    pose proof (afterV0Branch_cases clus st) as [_ Hcase]. rewrite Hv0 in Hcase.
    destruct Hcase as (C1 & _).
    assert (Hnot : forall c (l : Locals), tryDaughter l = false -> he3Tried c l = false).
    { intros c l Hl. destruct (he3Tried c l) eqn:E; [|reflexivity].
      apply he3Tried_needs_flag in E as [E _]. congruence. }
    split; [assumption|]. split.
    + destruct (he3Tried clus st) eqn:E; [|reflexivity].
      apply he3Tried_needs_flag in E as [_ E]. congruence.
    + intros st' mid rest later st'' Hb Hpost Hmid.
      apply loopBody_Continue in Hb as (_ & _ & B3 & _).
      specialize (B3 Hv0).
      pose proof (attachLoop_flag mid st' st'' Hmid B3) as Hf.
      split; [assumption|]. apply Hnot. assumption.
Qed.

(** *** The second pass and the final refit *)


Lemma secondPass_setup (st : Locals) :
  sameSetup (tracker st) (snd (secondPass st))
  /\ infoLog (snd (secondPass st)) = infoLog (tracker st).
Proof.
  unfold secondPass. destruct (0 <? _).
  - pose proof (refitLoop_setup (rev (ITSclusV0 st)) (resetV0Covariance (tracker st)))
      as [Hs Hl].
    unfold resetV0Covariance in *. split.
    + destruct Hs as (A1 & A2 & A3 & A4 & A5 & A6). repeat split; assumption.
    + rewrite Hl. reflexivity.
  - cbn. split; [apply sameSetup_refl|reflexivity].
Qed.

(** A pass that reaches the next hit has added one to the counter exactly
    when [updateTrack] accepted the hit, on the V0 or on the daughter. *)
Lemma loopBody_counts (clus : ITSCluster) (st st' : Locals) :
  loopBody clus st = Continue st' ->
  isProcessed st'
  = if v0Attached clus st || he3Attached clus st
    then int_of (isProcessed st + 1) else isProcessed st.
Proof.
  rewrite loopBody_steps. intros Hb.
  pose proof (afterV0Branch_cases clus st) as [_ Hc].
  unfold he3Attached.
  destruct (he3Tried clus st) eqn:Htried.
  - apply he3Tried_needs_flag in Htried as [_ Hv0]. rewrite Hv0 in *.
    destruct Hc as (_ & _ & C3 & _).
    pose proof (he3Branch_cases clus (afterV0Branch clus st)) as Hh.
    rewrite Hb in Hh. destruct Hh as (D0 & _ & _ & _ & D4 & _).
    rewrite D0. cbn [andb orb]. congruence.
  - destruct (isProcessed (afterV0Branch clus st) =? 0); [discriminate|].
    injection Hb as <-. cbn [andb]. rewrite orb_false_r.
    destruct (v0Attached clus st).
    + destruct Hc as (_ & _ & C3 & _). assumption.
    + destruct Hc as (_ & _ & C3 & _). assumption.
Qed.

(** Along a first loop that runs to its end, the counter counts the hits
    that [updateTrack] accepted. *)
Lemma attachLoop_counts_accepted (clusters : list ITSCluster) (st st' : Locals) :
  attachLoop clusters st = Continue st' ->
  0 <= isProcessed st ->
  isProcessed st + Z.of_nat (length clusters) < 2147483648 ->
  0 <= acceptedHits clusters st <= Z.of_nat (length clusters)
  /\ isProcessed st' = isProcessed st + acceptedHits clusters st.
Proof.
  revert st. induction clusters as [|clus rest IH]; intros st Hl Hpos Hlt.
  - cbn in Hl. injection Hl as <-. cbn [acceptedHits length]. lia.
  - cbn [attachLoop] in Hl. cbn [length] in Hlt. cbn [acceptedHits length].
    destruct (loopBody clus st) as [st1|st1|e st1] eqn:Hb; try discriminate.
    pose proof (loopBody_counts clus st st1 Hb) as Hc.
    destruct (v0Attached clus st || he3Attached clus st).
    + rewrite int_of_small in Hc by lia.
      destruct (IH st1 Hl) as (I1 & I2); [lia|lia|]. lia.
    + destruct (IH st1 Hl) as (I1 & I2); [lia|lia|]. lia.
Qed.

(** C5. When the first loop runs to its end, the second pass succeeds and
    the final 3-body refit succeeds, [process()] returns true exactly when the
    number of hits that [updateTrack] accepted in the first loop, on the V0
    or on the daughter, is at least [nClusMatching]: with exactly that many
    accepted hits it returns true, with one fewer it returns false. Both
    constructors set [nClusMatching] to the number of clusters of the mother
    track. *)
Theorem process_matched_iff_enough_hits (s : State) (st : Locals) (s1 : State) :
  Z.of_nat (length (hyperClusters s)) < 2147483648 ->
  attachLoop (hyperClusters s) (initLocals s) = Continue st ->
  secondPass st = (true, s1) ->
  fst (Refit3Body s1) = Normal true ->
  (fst (process s) = Normal true <->
     nClusMatching s <= acceptedHits (hyperClusters s) (initLocals s))
  /\ (acceptedHits (hyperClusters s) (initLocals s) = nClusMatching s ->
      fst (process s) = Normal true)
  /\ (acceptedHits (hyperClusters s) (initLocals s) = nClusMatching s - 1 ->
      fst (process s) = Normal false)
  /\ (forall (dflt : State) (motherTrack : TrackParCov Kin) (v0 : V0 Kin)
             (motherClusters : list ITSCluster) (gman : GeometryTGeo),
        Z.of_nat (length motherClusters) < 2147483648 ->
        nClusMatching (HyperTracker_ctor' dflt motherTrack v0 motherClusters gman)
        = Z.of_nat (length motherClusters)
        /\ forall (fitterV0 : F2) (s' : State),
             HyperTracker_ctor dflt motherTrack v0 motherClusters gman fitterV0
             = (Normal tt, s') ->
             nClusMatching s' = Z.of_nat (length motherClusters)).
Proof.
  intros Hlen Hloop Hsecond Hrefit.
  assert (Hres : fst (process s)
                 = Normal (nClusMatching s <=? acceptedHits (hyperClusters s) (initLocals s))).
  { pose proof (attachLoop_counts_accepted _ _ _ Hloop) as Hacc.
    cbn [initLocals isProcessed] in Hacc.
    destruct Hacc as (_ & A2); [lia|lia|].
    pose proof (attachLoop_Continue _ _ _ Hloop) as Hinv.
    cbn [initLocals isProcessed tracker] in Hinv.
    destruct Hinv as (I1 & _); [lia|lia|].
    pose proof (secondPass_setup st) as [Hs2 _]. rewrite Hsecond in Hs2. cbn [snd] in Hs2.
    pose proof (Refit3Body_setup s1) as [Hs3 _].
    unfold process. rewrite Hloop, Hsecond. cbn [negb]. unfold finalRefit.
    destruct (Refit3Body s1) as [r s2]. cbn [fst snd] in *. subst r. cbn [negb fst].
    destruct I1 as (_ & _ & _ & _ & _ & N1).
    destruct Hs2 as (_ & _ & _ & _ & _ & N2).
    destruct Hs3 as (_ & _ & _ & _ & _ & N3).
    rewrite A2, N3, N2, N1. f_equal. }
  rewrite Hres. split; [|split; [|split]].
  - split.
    + intros H. injection H as H. apply Z.leb_le. assumption.
    + intros H. apply Z.leb_le in H. rewrite H. reflexivity.
  - intros ->. rewrite Z.leb_refl. reflexivity.
  - intros ->. f_equal. apply Z.leb_gt. lia.
  - intros dflt motherTrack v0 motherClusters gman Hn. split.
    + cbn. apply int_of_small. lia.
    + intros fitterV0 s'. unfold HyperTracker_ctor.
      destruct (recreateV0 _ _ _ _ _) as [r sr].
      destruct r as [recr|e]; [|discriminate].
      intros H. injection H as <-. cbn. apply int_of_small. lia.
Qed.


End MatcherProperties.

(** *** The matcher on concrete candidates *)



(** In [daughterRefused] the first hit is tried on the daughter and refused. *)
Lemma he3_failure_rejects_and_v0_clears_fallback_witness :
  he3Tried Scenario.cBandRefused (HyperTracker.initLocals Scenario.daughterRefused) = true
  /\ he3Attached Scenario.cBandRefused (HyperTracker.initLocals Scenario.daughterRefused) = false
  /\ exists st1,
       HyperTracker.loopBody Scenario.cBandRefused
         (HyperTracker.initLocals Scenario.daughterRefused) = HyperTracker.ReturnFalse st1
       /\ HyperTracker.process Scenario.daughterRefused = (Normal false, HyperTracker.tracker st1).
Proof.
  assert (H1 : he3Tried Scenario.cBandRefused
                 (HyperTracker.initLocals Scenario.daughterRefused) = true)
    by (vm_compute; reflexivity).
  assert (H2 : he3Attached Scenario.cBandRefused
                 (HyperTracker.initLocals Scenario.daughterRefused) = false)
    by (vm_compute; reflexivity).
  split; [exact H1|]. split; [exact H2|].
  pose proof (he3_failure_rejects_and_v0_clears_fallback
                Scenario.daughterRefused [] [Scenario.cBand] Scenario.cBandRefused
                (HyperTracker.initLocals Scenario.daughterRefused)
                eq_refl eq_refl) as [H _].
  exact (H H1 H2).
Defined.

(** In [matched] both hits are accepted and two are asked for; in
    [oneShort] the same two are accepted and three are asked for; in
    [v0ThenRefused] two are asked for and the second hit is refused, so that
    one hit is accepted. *)
Lemma process_matched_iff_enough_hits_witness :
  acceptedHits (HyperTracker.hyperClusters Scenario.matched)
    (HyperTracker.initLocals Scenario.matched) = 2
  /\ acceptedHits (HyperTracker.hyperClusters Scenario.v0ThenRefused)
       (HyperTracker.initLocals Scenario.v0ThenRefused) = 1
  /\ fst (HyperTracker.process Scenario.v0ThenRefused) = Normal false
  /\ fst (HyperTracker.process Scenario.matched) = Normal true
  /\ fst (HyperTracker.process Scenario.oneShort) = Normal false.
Proof.
  assert (Hlen2 : Z.of_nat (length [Scenario.cBand; Scenario.cBandRefused]) < 2147483648)
    by reflexivity.
  assert (Hn1 : acceptedHits (HyperTracker.hyperClusters Scenario.v0ThenRefused)
                  (HyperTracker.initLocals Scenario.v0ThenRefused) = 1)
    by (vm_compute; reflexivity).
  assert (Hloop1 : HyperTracker.attachLoop (HyperTracker.hyperClusters Scenario.v0ThenRefused)
                     (HyperTracker.initLocals Scenario.v0ThenRefused)
                   = HyperTracker.Continue
                       (Scenario.localsAfter [Scenario.cBand; Scenario.cBandRefused]
                          Scenario.v0ThenRefused))
    by (vm_compute; reflexivity).
  assert (Hsecond1 : HyperTracker.secondPass
                       (Scenario.localsAfter [Scenario.cBand; Scenario.cBandRefused]
                          Scenario.v0ThenRefused)
                     = (true, snd (HyperTracker.secondPass
                                     (Scenario.localsAfter
                                        [Scenario.cBand; Scenario.cBandRefused]
                                        Scenario.v0ThenRefused))))
    by (vm_compute; reflexivity).
  assert (Hrefit1 : fst (HyperTracker.Refit3Body
                           (snd (HyperTracker.secondPass
                                   (Scenario.localsAfter
                                      [Scenario.cBand; Scenario.cBandRefused]
                                      Scenario.v0ThenRefused))))
                    = Normal true)
    by (vm_compute; reflexivity).
  assert (Hshort : fst (HyperTracker.process Scenario.v0ThenRefused) = Normal false).
  { pose proof (process_matched_iff_enough_hits
                  Scenario.v0ThenRefused
                  (Scenario.localsAfter [Scenario.cBand; Scenario.cBandRefused]
                     Scenario.v0ThenRefused)
                  (snd (HyperTracker.secondPass
                          (Scenario.localsAfter [Scenario.cBand; Scenario.cBandRefused]
                             Scenario.v0ThenRefused)))
                  Hlen2 Hloop1 Hsecond1 Hrefit1) as (_ & _ & H & _).
    apply H. rewrite Hn1. reflexivity. }
  assert (Hlen : Z.of_nat (length [Scenario.cOuter; Scenario.cInner]) < 2147483648)
    by reflexivity.
  assert (Hn : acceptedHits (HyperTracker.hyperClusters Scenario.matched)
                 (HyperTracker.initLocals Scenario.matched) = 2)
    by (vm_compute; reflexivity).
  split; [exact Hn|]. split; [exact Hn1|]. split; [exact Hshort|]. split.
  - assert (Hloop : HyperTracker.attachLoop (HyperTracker.hyperClusters Scenario.matched)
                      (HyperTracker.initLocals Scenario.matched)
                    = HyperTracker.Continue Scenario.matchedLocals)
      by (vm_compute; reflexivity).
    assert (Hsecond : HyperTracker.secondPass Scenario.matchedLocals
                      = (true, snd (HyperTracker.secondPass Scenario.matchedLocals)))
      by (vm_compute; reflexivity).
    assert (Hrefit : fst (HyperTracker.Refit3Body
                            (snd (HyperTracker.secondPass Scenario.matchedLocals)))
                     = Normal true)
      by (vm_compute; reflexivity).
    pose proof (process_matched_iff_enough_hits
                  Scenario.matched Scenario.matchedLocals
                  (snd (HyperTracker.secondPass Scenario.matchedLocals))
                  Hlen Hloop Hsecond Hrefit) as (_ & H & _).
    exact (H Hn).
  - assert (Hloop : HyperTracker.attachLoop (HyperTracker.hyperClusters Scenario.oneShort)
                      (HyperTracker.initLocals Scenario.oneShort)
                    = HyperTracker.Continue Scenario.oneShortLocals)
      by (vm_compute; reflexivity).
    assert (Hsecond : HyperTracker.secondPass Scenario.oneShortLocals
                      = (true, snd (HyperTracker.secondPass Scenario.oneShortLocals)))
      by (vm_compute; reflexivity).
    assert (Hrefit : fst (HyperTracker.Refit3Body
                            (snd (HyperTracker.secondPass Scenario.oneShortLocals)))
                     = Normal true)
      by (vm_compute; reflexivity).
    assert (Hm : acceptedHits (HyperTracker.hyperClusters Scenario.oneShort)
                   (HyperTracker.initLocals Scenario.oneShort)
                 = HyperTracker.nClusMatching Scenario.oneShort - 1)
      by (vm_compute; reflexivity).
    pose proof (process_matched_iff_enough_hits
                  Scenario.oneShort Scenario.oneShortLocals
                  (snd (HyperTracker.secondPass Scenario.oneShortLocals))
                  Hlen Hloop Hsecond Hrefit) as (_ & _ & H & _).
    exact (H Hm).
Defined.



(* ------------------------------------------------------------------ *)
(** ** Properties of the vertex refit *)

Section RefitProperties.

Context {Kin F2 F3 : Type} {TO : TrackOps Kin} {FO : FitterOps Kin F2 F3}.

#[local] Abbreviation HState := (@HyperTracker.State Kin F2 F3).
#[local] Abbreviation SState := (@StrangenessTracker.State F2).

(** C7. In [HyperTracker::recreateV0], in [Refit3Body] and in
    [StrangenessTracker::recreateV0], a [std::runtime_error] thrown by the
    fitter and a fitter that reports no candidate end alike: the function
    returns false, no exception leaves it, and the candidate is as it was. *)
Theorem refit_failure_is_a_boolean :
  (forall (posTrack negTrack : TrackParCov Kin) (posID negID : Z) (s : HState),
     fst (process2 posTrack negTrack (HyperTracker.mFitterV0 s)) = Raised RuntimeError
     \/ fst (process2 posTrack negTrack (HyperTracker.mFitterV0 s)) = Normal 0 ->
     fst (HyperTracker.recreateV0 posTrack negTrack posID negID s) = Normal false
     /\ HyperTracker.hypV0 (snd (HyperTracker.recreateV0 posTrack negTrack posID negID s))
        = HyperTracker.hypV0 s)
  /\ (forall s : HState,
        fst (process3 (v0Track (HyperTracker.hypV0 s))
                      (getProng (HyperTracker.hypV0 s) 0)
                      (getProng (HyperTracker.hypV0 s) 1)
                      (HyperTracker.mFitter3Body s)) = Raised RuntimeError
        \/ fst (process3 (v0Track (HyperTracker.hypV0 s))
                         (getProng (HyperTracker.hypV0 s) 0)
                         (getProng (HyperTracker.hypV0 s) 1)
                         (HyperTracker.mFitter3Body s)) = Normal 0 ->
        fst (HyperTracker.Refit3Body s) = Normal false
        /\ HyperTracker.hypV0 (snd (HyperTracker.Refit3Body s)) = HyperTracker.hypV0 s)
  /\ (forall (posTrack negTrack : TrackParCov Kin) (newV0 : V0 Kin) (s : SState),
        fst (process2 posTrack negTrack (StrangenessTracker.mFitterV0 s)) = Raised RuntimeError
        \/ fst (process2 posTrack negTrack (StrangenessTracker.mFitterV0 s)) = Normal 0 ->
        fst (fst (StrangenessTracker.recreateV0 posTrack negTrack newV0 s)) = Normal false
        /\ snd (fst (StrangenessTracker.recreateV0 posTrack negTrack newV0 s)) = newV0).
Proof.
  split; [|split].
  - intros posTrack negTrack posID negID s H. unfold HyperTracker.recreateV0.
    destruct (process2 posTrack negTrack (HyperTracker.mFitterV0 s)) as [r f].
    cbn [fst] in H. destruct H as [-> | ->]; cbn; split; reflexivity.
  - intros s H. unfold HyperTracker.Refit3Body.
    destruct (process3 _ _ _ (HyperTracker.mFitter3Body s)) as [r f].
    cbn [fst] in H. destruct H as [-> | ->]; cbn; split; reflexivity.
  - intros posTrack negTrack newV0 s H. unfold StrangenessTracker.recreateV0.
    destruct (process2 posTrack negTrack (StrangenessTracker.mFitterV0 s)) as [r f].
    cbn [fst] in H. destruct H as [-> | ->]; cbn; split; reflexivity.
Qed.

(** C8, as amended. A successful [recreateV0] builds the V0 from the vertex
    of the fitter and the sum of the momenta of the two tracks that the
    fitter propagated to it, with those tracks as prongs and with the
    HyperTriton hypothesis. [HyperTracker::recreateV0] then sets the absolute
    charge to 1. [StrangenessTracker::recreateV0] sets no charge: the V0 has
    the absolute value of the summed charges of the two propagated tracks,
    which is 1 for a daughter of charge 2 and one of charge -1. *)
Theorem recreateV0_rebuilds_candidate :
  (forall (posTrack negTrack : TrackParCov Kin) (posID negID : Z) (s : HState),
     fst (HyperTracker.recreateV0 posTrack negTrack posID negID s) = Normal true ->
     let s' := snd (HyperTracker.recreateV0 posTrack negTrack posID negID s) in
     let propPos := getTrack2 (HyperTracker.mFitterV0 s') 0 0 in
     let propNeg := getTrack2 (HyperTracker.mFitterV0 s') 1 0 in
     kin (v0Track (HyperTracker.hypV0 s'))
     = kinFromXYZPxPyPz (getPCACandidatePos2 (HyperTracker.mFitterV0 s'))
         (sumMomenta (getPxPyPzGlo propPos) (getPxPyPzGlo propNeg))
         (calcPCACovMatrixFlat2 (HyperTracker.mFitterV0 s') 0)
         (getCharge propPos + getCharge propNeg) HyperTriton
     /\ prong0 (HyperTracker.hypV0 s') = propPos
     /\ prong1 (HyperTracker.hypV0 s') = propNeg
     /\ pid (v0Track (HyperTracker.hypV0 s')) = HyperTriton
     /\ absCharge (v0Track (HyperTracker.hypV0 s')) = 1)
  /\ (forall (posTrack negTrack : TrackParCov Kin) (newV0 : V0 Kin) (s : SState),
        fst (fst (StrangenessTracker.recreateV0 posTrack negTrack newV0 s)) = Normal true ->
        let v := snd (fst (StrangenessTracker.recreateV0 posTrack negTrack newV0 s)) in
        let s' := snd (StrangenessTracker.recreateV0 posTrack negTrack newV0 s) in
        let propPos := getTrack2 (StrangenessTracker.mFitterV0 s') 0 0 in
        let propNeg := getTrack2 (StrangenessTracker.mFitterV0 s') 1 0 in
        kin (v0Track v)
        = kinFromXYZPxPyPz (getPCACandidatePos2 (StrangenessTracker.mFitterV0 s'))
            (sumMomenta (getPxPyPzGlo propPos) (getPxPyPzGlo propNeg))
            (calcPCACovMatrixFlat2 (StrangenessTracker.mFitterV0 s') 0)
            (getCharge propPos + getCharge propNeg) HyperTriton
        /\ prong0 v = propPos
        /\ prong1 v = propNeg
        /\ pid (v0Track v) = HyperTriton
        /\ absCharge (v0Track v) = Z.abs (getCharge propPos + getCharge propNeg)
        /\ (getCharge propPos = 2 -> getCharge propNeg = -1 -> absCharge (v0Track v) = 1)).
Proof.
  split.
  - intros posTrack negTrack posID negID s. unfold HyperTracker.recreateV0.
    destruct (process2 posTrack negTrack (HyperTracker.mFitterV0 s)) as [r f].
    destruct r as [nCand|e]; [|destruct e; discriminate].
    destruct (nCand =? 0); [discriminate|].
    destruct (propagateTracksToVertex2 f) as [b f']. cbn. intros _.
    repeat split.
  - intros posTrack negTrack newV0 s. unfold StrangenessTracker.recreateV0.
    destruct (process2 posTrack negTrack (StrangenessTracker.mFitterV0 s)) as [r f].
    destruct r as [nCand|e]; [|destruct e; discriminate].
    destruct (nCand =? 0); [discriminate|].
    destruct (propagateTracksToVertex2 f) as [b f'].
    destruct b; [|discriminate]. cbn. intros _.
    repeat split. intros -> ->. reflexivity.
Qed.

(** C10. [StrangenessTracker::recreateV0] assigns [newV0] on its last line
    only: when the fitter throws a [std::runtime_error], when it reports no
    candidate and when the propagation of the fitted tracks to the vertex
    fails, the function returns false and [newV0] is what it was; whenever
    the function does not return true, [newV0] is what it was. *)
Theorem recreateV0_failure_keeps_newV0 (posTrack negTrack : TrackParCov Kin)
    (newV0 : V0 Kin) (s : SState) :
  (fst (process2 posTrack negTrack (StrangenessTracker.mFitterV0 s)) = Raised RuntimeError
   \/ fst (process2 posTrack negTrack (StrangenessTracker.mFitterV0 s)) = Normal 0
   \/ (exists nCand,
         fst (process2 posTrack negTrack (StrangenessTracker.mFitterV0 s)) = Normal nCand
         /\ fst (propagateTracksToVertex2
                   (snd (process2 posTrack negTrack (StrangenessTracker.mFitterV0 s))))
            = false) ->
   fst (fst (StrangenessTracker.recreateV0 posTrack negTrack newV0 s)) = Normal false
   /\ snd (fst (StrangenessTracker.recreateV0 posTrack negTrack newV0 s)) = newV0)
  /\ (fst (fst (StrangenessTracker.recreateV0 posTrack negTrack newV0 s)) <> Normal true ->
      snd (fst (StrangenessTracker.recreateV0 posTrack negTrack newV0 s)) = newV0).
Proof.
  unfold StrangenessTracker.recreateV0.
  destruct (process2 posTrack negTrack (StrangenessTracker.mFitterV0 s)) as [r f].
  cbn [fst snd]. split.
  - intros [-> | [-> | (nCand & -> & Hp)]]; try (cbn; split; reflexivity).
    destruct (nCand =? 0); [cbn; split; reflexivity|].
    destruct (propagateTracksToVertex2 f) as [b f']. cbn [fst] in Hp. subst b.
    cbn. split; reflexivity.
  - destruct r as [nCand|e]; [|destruct e; reflexivity].
    destruct (nCand =? 0); [reflexivity|].
    destruct (propagateTracksToVertex2 f) as [b f'].
    destruct b; cbn; [|reflexivity]. intros H. exfalso. apply H. reflexivity.
Qed.

End RefitProperties.

(* ------------------------------------------------------------------ *)
(** ** Properties of the truth label *)

Section LabelProperties.

Context {F2 : Type}.

#[local] Abbreviation SState := (@StrangenessTracker.State F2).

Lemma scanLayers_true_iff (s : SState) (n iLay : nat) :
  StrangenessTracker.scanLayers s n iLay = true <->
  exists k : nat, (iLay <= k < iLay + n)%nat /\ StrangenessTracker.fakeOnLayer s k = true.
Proof.
  revert iLay. induction n as [|n IH]; intros iLay; cbn [StrangenessTracker.scanLayers].
  - split; [discriminate|]. intros (k & Hk & _). lia.
  - destruct (StrangenessTracker.fakeOnLayer s iLay) eqn:E.
    + split; [|reflexivity]. intros _. exists iLay. split; [lia|assumption].
    + rewrite IH. split.
      * intros (k & Hk & Hf). exists k. split; [lia|assumption].
      * intros (k & Hk & Hf). exists k. split; [|assumption].
        destruct (Nat.eq_dec k iLay) as [->|Hne]; [congruence|lia].
Qed.

Lemma ownerOf_slot0 (slot : Z) :
  (slot =? 0) = true <-> ownerOf slot = OwnedByMother.
Proof.
  unfold ownerOf. destruct (slot =? 0); [tauto|].
  destruct (slot =? 4294967295); split; discriminate.
Qed.

(** C9, as amended. With truth labels on, the label that
    [getStrangeTrackLabel] returns is fake exactly when there is a layer, 0
    to 6, on which the track has a hit, the hit is fake, and the slot of the
    layer in the attachments is 0, the mark of the mother. A layer whose
    slot holds the mark of an unattached layer or the number of a daughter
    does not count. The label is the stored label of the track with
    [setFakeFlag] applied to it, the same in everything but the fake flag. *)
Theorem strange_label_fake_iff (s : SState) (stored : MCCompLabel) :
  StrangenessTracker.mMCTruthON s = true ->
  length (arr (StrangenessTracker.mStructClus s)) = 7%nat ->
  nth_error (StrangenessTracker.mITSTrkLabels s) (StrangenessTracker.mITSRef s) = Some stored ->
  exists label : MCCompLabel,
    StrangenessTracker.getStrangeTrackLabel s = Some label
    /\ (fakeFlag label = true <->
        exists iLay : nat,
          (iLay < 7)%nat
          /\ hasHitOnLayer (StrangenessTracker.mITStrack s) iLay = true
          /\ isFakeOnLayer (StrangenessTracker.mITStrack s) iLay = true
          /\ nth iLay (arr (StrangenessTracker.mStructClus s)) 0 = 0)
    /\ (fakeFlag label = true <->
        exists iLay : nat,
          (iLay < 7)%nat
          /\ hasHitOnLayer (StrangenessTracker.mITStrack s) iLay = true
          /\ isFakeOnLayer (StrangenessTracker.mITStrack s) iLay = true
          /\ ownerOf (nth iLay (arr (StrangenessTracker.mStructClus s)) 0) = OwnedByMother)
    /\ label = setFakeFlag (fakeFlag label) stored
    /\ truthID label = truthID stored.
Proof.
  intros _ _ Hstored. unfold StrangenessTracker.getStrangeTrackLabel.
  rewrite Hstored. eexists. split; [reflexivity|]. cbn [setFakeFlag fakeFlag truthID].
  split; [|split; [|split; reflexivity]].
  - rewrite scanLayers_true_iff. split.
    + intros (k & Hk & Hf). exists k. split; [lia|].
      unfold StrangenessTracker.fakeOnLayer in Hf.
      apply andb_true_iff in Hf as [Hf Hslot]. apply andb_true_iff in Hf as [Hhit Hfake].
      repeat split; try assumption. apply Z.eqb_eq. assumption.
    + intros (k & Hk & Hhit & Hfake & Hm). exists k. split; [lia|].
      unfold StrangenessTracker.fakeOnLayer. rewrite Hhit, Hfake. cbn [andb].
      apply Z.eqb_eq. assumption.
  - rewrite scanLayers_true_iff. split.
    + intros (k & Hk & Hf). exists k. split; [lia|].
      unfold StrangenessTracker.fakeOnLayer in Hf.
      apply andb_true_iff in Hf as [Hf Hslot]. apply andb_true_iff in Hf as [Hhit Hfake].
      repeat split; try assumption. apply ownerOf_slot0. assumption.
    + intros (k & Hk & Hhit & Hfake & Hm). exists k. split; [lia|].
      unfold StrangenessTracker.fakeOnLayer. rewrite Hhit, Hfake. cbn [andb].
      apply ownerOf_slot0. assumption.
Qed.

End LabelProperties.

(** *** The refit and the label on concrete candidates *)

Lemma refit_failure_is_a_boolean_witness :
  fst (HyperTracker.recreateV0 Scenario.posTrack Scenario.negTrack 10 11 Scenario.fitterThrows)
  = Normal false
  /\ fst (HyperTracker.Refit3Body Scenario.noCandidate) = Normal false
  /\ fst (fst (StrangenessTracker.recreateV0 Scenario.posTrack Scenario.negTrack Toy.v0
                 (Scenario.labelled Toy.fitNone))) = Normal false.
Proof.
  pose proof (@refit_failure_is_a_boolean Toy.Kin Toy.Fitter Toy.Fitter _ _) as (H1 & H2 & H3).
  split; [|split].
  - apply (H1 Scenario.posTrack Scenario.negTrack 10 11 Scenario.fitterThrows).
    left. reflexivity.
  - apply (H2 Scenario.noCandidate). right. reflexivity.
  - apply (H3 Scenario.posTrack Scenario.negTrack Toy.v0 (Scenario.labelled Toy.fitNone)).
    right. reflexivity.
Defined.

(** C8, the counterexample. [StrangenessTracker::recreateV0] succeeds on two
    daughters of charge +1 and -1, and the V0 it builds has absolute charge
    0. *)
Lemma recreateV0_charge_follows_daughters :
  getCharge Scenario.posTrack = 1
  /\ getCharge Scenario.negTrack = -1
  /\ fst (fst (StrangenessTracker.recreateV0 Scenario.posTrack Scenario.negTrack Toy.v0
                 (Scenario.labelled Toy.fitOK))) = Normal true
  /\ absCharge (v0Track (snd (fst (StrangenessTracker.recreateV0
                                     Scenario.posTrack Scenario.negTrack Toy.v0
                                     (Scenario.labelled Toy.fitOK))))) = 0.
Proof. repeat split; vm_compute; reflexivity. Qed.

Lemma recreateV0_rebuilds_candidate_witness :
  absCharge (v0Track (HyperTracker.hypV0
                        (snd (HyperTracker.recreateV0 Scenario.posTrack Scenario.negTrack
                                10 11 Scenario.matched)))) = 1
  /\ pid (v0Track (snd (fst (StrangenessTracker.recreateV0
                               (setAbsCharge 2 Scenario.posTrack) Scenario.negTrack Toy.v0
                               (Scenario.labelled Toy.fitOK))))) = HyperTriton
  /\ absCharge (v0Track (snd (fst (StrangenessTracker.recreateV0
                                     (setAbsCharge 2 Scenario.posTrack) Scenario.negTrack
                                     Toy.v0 (Scenario.labelled Toy.fitOK))))) = 1.
Proof.
  pose proof (@recreateV0_rebuilds_candidate Toy.Kin Toy.Fitter Toy.Fitter _ _) as (H1 & H2).
  assert (Hh : fst (HyperTracker.recreateV0 Scenario.posTrack Scenario.negTrack
                      10 11 Scenario.matched) = Normal true)
    by (vm_compute; reflexivity).
  assert (Hs : fst (fst (StrangenessTracker.recreateV0
                           (setAbsCharge 2 Scenario.posTrack) Scenario.negTrack Toy.v0
                           (Scenario.labelled Toy.fitOK))) = Normal true)
    by (vm_compute; reflexivity).
  split; [|split].
  - apply (H1 Scenario.posTrack Scenario.negTrack 10 11 Scenario.matched Hh).
  - apply (H2 (setAbsCharge 2 Scenario.posTrack) Scenario.negTrack Toy.v0
              (Scenario.labelled Toy.fitOK) Hs).
  - apply (H2 (setAbsCharge 2 Scenario.posTrack) Scenario.negTrack Toy.v0
              (Scenario.labelled Toy.fitOK) Hs); vm_compute; reflexivity.
Defined.

Lemma recreateV0_failure_keeps_newV0_witness :
  fst (fst (StrangenessTracker.recreateV0 Scenario.posTrack Scenario.negTrack Toy.v0
              (Scenario.labelled Toy.fitStuck))) = Normal false
  /\ snd (fst (StrangenessTracker.recreateV0 Scenario.posTrack Scenario.negTrack Toy.v0
                 (Scenario.labelled Toy.fitStuck))) = Toy.v0.
Proof.
  apply (recreateV0_failure_keeps_newV0 Scenario.posTrack Scenario.negTrack Toy.v0
           (Scenario.labelled Toy.fitStuck)).
  right. right. exists 1. split; reflexivity.
Defined.

(** C9, the counterexample. On the track of [labelledOpen] layer 1 has a
    hit, the hit is fake, and the attachments give the layer to no daughter:
    its slot holds the mark of an unattached layer. The label comes back not
    fake. *)
Lemma unattached_fake_layer_not_counted :
  (1 < 7)%nat
  /\ hasHitOnLayer (StrangenessTracker.mITStrack (Scenario.labelledOpen Toy.fitOK)) 1 = true
  /\ isFakeOnLayer (StrangenessTracker.mITStrack (Scenario.labelledOpen Toy.fitOK)) 1 = true
  /\ isDaughter
       (ownerOf (nth 1 (arr (StrangenessTracker.mStructClus (Scenario.labelledOpen Toy.fitOK)))
                     0)) = false
  /\ ownerOf (nth 1 (arr (StrangenessTracker.mStructClus (Scenario.labelledOpen Toy.fitOK))) 0)
     = Unattached
  /\ StrangenessTracker.getStrangeTrackLabel (Scenario.labelledOpen Toy.fitOK)
     = Some (mkLabel 42 false).
Proof. repeat split; vm_compute; try reflexivity; lia. Qed.

(** The track of [labelled] has a fake hit on layer 1, which belongs to the
    mother: its label comes back fake, with its identifier. *)
Lemma strange_label_fake_iff_witness :
  exists label : MCCompLabel,
    StrangenessTracker.getStrangeTrackLabel (Scenario.labelled Toy.fitOK) = Some label
    /\ fakeFlag label = true
    /\ truthID label = 42.
Proof.
  destruct (strange_label_fake_iff (Scenario.labelled Toy.fitOK) (mkLabel 42 false)
              eq_refl eq_refl eq_refl) as (label & Hget & Hfake & _ & _ & Hid).
  exists label. split; [exact Hget|]. split; [|exact Hid].
  apply Hfake. exists 1%nat. repeat split. lia.
Defined.

(* ------------------------------------------------------------------ *)
(** ** Further properties: the chi-square gate *)

Lemma SFltb_leb_trans (a b c : float) :
  SFltb a b = true -> SFleb b c = true -> SFltb a c = true.
Proof.
  unfold SFltb, SFleb.
  destruct a as [sa|sa| |sa ma ea], b as [sb|sb| |sb mb eb], c as [sc|sc| |sc mc ec];
    cbn [SFcompare]; try discriminate; try reflexivity;
    try (destruct sa; discriminate); try (destruct sb; discriminate);
    try (destruct sa, sb; try discriminate; try reflexivity; fail);
    try (destruct sb, sc; try discriminate; try reflexivity; fail);
    try (destruct sa, sb, sc; try discriminate; try reflexivity; fail).
  all: destruct sa, sb, sc; try discriminate; try reflexivity.
  all: fold (Pos.compare ma mb); fold (Pos.compare mb mc); fold (Pos.compare ma mc).
  all: destruct (Z.compare_spec ea eb); destruct (Z.compare_spec eb ec);
       destruct (Z.compare_spec ea ec);
       destruct (Pos.compare_spec ma mb); destruct (Pos.compare_spec mb mc);
       destruct (Pos.compare_spec ma mc); cbn; try discriminate; try reflexivity; try lia.
Qed.

Lemma SFleb_not_ltb (a b : float) :
  SFleb b a = true -> SFltb a b = false.
Proof.
  unfold SFltb, SFleb.
  destruct a as [sa|sa| |sa ma ea], b as [sb|sb| |sb mb eb];
    cbn [SFcompare]; try discriminate; try reflexivity;
    try (destruct sa; try discriminate; reflexivity);
    try (destruct sb; try discriminate; reflexivity);
    try (destruct sa, sb; try discriminate; reflexivity).
  destruct sa, sb; try discriminate; try reflexivity.
  all: fold (Pos.compare ma mb); fold (Pos.compare mb ma).
  all: destruct (Z.compare_spec ea eb); destruct (Z.compare_spec eb ea);
       destruct (Pos.compare_spec ma mb); destruct (Pos.compare_spec mb ma);
       cbn; try discriminate; try reflexivity; try lia.
Qed.

Lemma SFadd_comm (prec emax : Z) (x y : float) :
  SFadd prec emax x y = SFadd prec emax y x.
Proof.
  destruct x as [sx|sx| |sx mx ex], y as [sy|sy| |sy my ey]; cbn [SFadd];
    try reflexivity; try (destruct sx, sy; reflexivity).
  rewrite (Z.min_comm ex ey). f_equal. apply Z.add_comm.
Qed.

Section GateProperties.

Context {Kin F2 F3 : Type} {TO : TrackOps Kin} {FO : FitterOps Kin F2 F3}.

Import HyperTracker.

#[local] Abbreviation State := (@HyperTracker.State Kin F2 F3).

(** The steps of a cluster attachment read the geometry and the field only. *)
Lemma steps_same_geometry (s s' : State) (clus : ITSCluster) (t : TrackParCov Kin) :
  geomITS s' = geomITS s -> mBz s' = mBz s ->
  rotation s' clus t = rotation s clus t
  /\ propagation s' clus t = propagation s clus t
  /\ materialCorrection s' clus t = materialCorrection s clus t
  /\ gateChi2 s' clus t = gateChi2 s clus t.
Proof.
  intros Hg Hb.
  unfold gateChi2, materialCorrection, propagation, rotation, sensorThickness.
  rewrite Hg, Hb. repeat split.
Qed.

(** X1. The gate is monotone in [mMaxChi2]. For the same geometry and field,
    a hit that is accepted under one cut is accepted, with the same updated
    track, under every cut that is not smaller; and a hit whose chi-square is
    not below the cut is rejected. *)
Theorem updateTrack_gate_monotone (s s' : State) (clus : ITSCluster)
    (t : TrackParCov Kin) :
  geomITS s' = geomITS s ->
  mBz s' = mBz s ->
  (SFleb (mMaxChi2 s) (mMaxChi2 s') = true ->
   fst (updateTrack s clus t) = true ->
   updateTrack s' clus t = updateTrack s clus t)
  /\ (SFleb (mMaxChi2 s') (gateChi2 s clus t) = true ->
      fst (updateTrack s' clus t) = false).
Proof.
  intros Hg Hb.
  destruct (steps_same_geometry s s' clus t Hg Hb) as (Hr & Hp & Hm & Hc).
  rewrite !updateTrack_steps, Hr, Hp, Hm, Hc. split.
  - intros Hle.
    destruct (fst (rotation s clus t)); [|discriminate].
    destruct (fst (propagation s clus t)); [|discriminate].
    destruct (fst (materialCorrection s clus t)); cbn [andb]; [|discriminate].
    destruct (F32.ltb (gateChi2 s clus t) (mMaxChi2 s)) eqn:Hlt; cbn [andb]; [|discriminate].
    unfold F32.ltb in *. rewrite (SFltb_leb_trans _ _ _ Hlt Hle). reflexivity.
  - intros Hle. unfold F32.ltb. rewrite (SFleb_not_ltb _ _ Hle).
    rewrite andb_false_r.
    destruct (fst (rotation s clus t)); [|reflexivity].
    destruct (fst (propagation s clus t)); reflexivity.
Qed.

End GateProperties.

(** The hit [cOuter], accepted under the cut of 40, is accepted under the cut
    of 100; the hit [cAtCut], with chi-square 40, is rejected under the cut of
    40. *)
Lemma updateTrack_gate_monotone_witness :
  fst (HyperTracker.updateTrack MoreScenarios.looseCut Scenario.cOuter (v0Track Toy.v0)) = true
  /\ fst (HyperTracker.updateTrack Scenario.matched MoreScenarios.cAtCut (v0Track Toy.v0))
     = false.
Proof.
  split.
  - assert (Hacc : fst (HyperTracker.updateTrack Scenario.matched Scenario.cOuter
                          (v0Track Toy.v0)) = true) by (vm_compute; reflexivity).
    assert (Hle : SFleb (HyperTracker.mMaxChi2 Scenario.matched)
                        (HyperTracker.mMaxChi2 MoreScenarios.looseCut) = true)
      by (vm_compute; reflexivity).
    rewrite (proj1 (updateTrack_gate_monotone Scenario.matched MoreScenarios.looseCut
                      Scenario.cOuter (v0Track Toy.v0) eq_refl eq_refl) Hle Hacc).
    exact Hacc.
  - assert (Hle : SFleb (HyperTracker.mMaxChi2 Scenario.matched)
                        (gateChi2 Scenario.matched MoreScenarios.cAtCut (v0Track Toy.v0))
                  = true) by (vm_compute; reflexivity).
    exact (proj2 (updateTrack_gate_monotone Scenario.matched Scenario.matched
                    MoreScenarios.cAtCut (v0Track Toy.v0) eq_refl eq_refl) Hle).
Defined.

(* ------------------------------------------------------------------ *)
(** ** Further properties: what the matcher leaves alone *)

Section FrameProperties.

Context {Kin F2 F3 : Type} {TO : TrackOps Kin} {FO : FitterOps Kin F2 F3}.

Import HyperTracker.

#[local] Abbreviation State := (@HyperTracker.State Kin F2 F3).
#[local] Abbreviation Locals := (@HyperTracker.Locals Kin F2 F3).

Lemma sameCandidate_refl (s : State) : sameCandidate s s.
Proof. repeat split. Qed.

Lemma sameCandidate_trans (s1 s2 s3 : State) :
  sameCandidate s1 s2 -> sameCandidate s2 s3 -> sameCandidate s1 s3.
Proof.
  intros (A1 & A2 & A3 & A4) (B1 & B2 & B3 & B4).
  split; [eapply sameSetup_trans; eassumption|].
  split; [congruence|]. split; congruence.
Qed.

Lemma logInfo_candidate (m : LogMsg) (s : State) :
  sameCandidate s (logInfo m s)
  /\ mFitterV0 (logInfo m s) = mFitterV0 s
  /\ mFitter3Body (logInfo m s) = mFitter3Body s
  /\ hypV0 (logInfo m s) = hypV0 s.
Proof. repeat split. Qed.

(** [updateTrack] on the V0 touches the track of the V0 and nothing else. *)
Lemma updateV0_candidate (clus : ITSCluster) (s : State) :
  sameCandidate s (snd (updateV0 clus s))
  /\ mFitterV0 (snd (updateV0 clus s)) = mFitterV0 s
  /\ mFitter3Body (snd (updateV0 clus s)) = mFitter3Body s
  /\ prong0 (hypV0 (snd (updateV0 clus s))) = prong0 (hypV0 s)
  /\ prong1 (hypV0 (snd (updateV0 clus s))) = prong1 (hypV0 s).
Proof.
  unfold updateV0. destruct (updateTrack s clus _) as [ok t]. cbn. repeat split.
Qed.

Lemma updateHe3_candidate (clus : ITSCluster) (s : State) :
  sameCandidate s (snd (updateHe3 clus s))
  /\ mFitterV0 (snd (updateHe3 clus s)) = mFitterV0 s
  /\ mFitter3Body (snd (updateHe3 clus s)) = mFitter3Body s
  /\ v0Track (hypV0 (snd (updateHe3 clus s))) = v0Track (hypV0 s).
Proof.
  unfold updateHe3, setProng. destruct (updateTrack s clus _) as [ok t].
  destruct (he3Index (hypV0 s) =? 0); cbn; repeat split.
Qed.

(** [recreateV0] called, as in [process()], with the identifiers of the
    candidate. *)
Lemma recreateV0_candidate (p n : TrackParCov Kin) (s : State) :
  sameCandidate s (snd (recreateV0 p n (prongID0 (hypV0 s)) (prongID1 (hypV0 s)) s))
  /\ mFitter3Body (snd (recreateV0 p n (prongID0 (hypV0 s)) (prongID1 (hypV0 s)) s))
     = mFitter3Body s.
Proof.
  unfold recreateV0. destruct (process2 p n (mFitterV0 s)) as [r f].
  destruct r as [nCand|e].
  - destruct (nCand =? 0); [cbn; repeat split|].
    destruct (propagateTracksToVertex2 f) as [b f']. cbn. repeat split.
  - destruct e; cbn; repeat split.
Qed.

Lemma Refit3Body_candidate (s : State) :
  sameCandidate s (snd (Refit3Body s))
  /\ mFitterV0 (snd (Refit3Body s)) = mFitterV0 s.
Proof.
  unfold Refit3Body. destruct (process3 _ _ _ (mFitter3Body s)) as [r f].
  destruct r as [nCand|e].
  - destruct (nCand =? 0); [cbn; repeat split|].
    destruct (propagateTracksToVertex3 f) as [b f']. cbn. repeat split.
  - destruct e; cbn; repeat split.
Qed.

Lemma afterV0Branch_candidate (clus : ITSCluster) (st : Locals) :
  sameCandidate (tracker st) (tracker (afterV0Branch clus st))
  /\ mFitter3Body (tracker (afterV0Branch clus st)) = mFitter3Body (tracker st).
Proof.
  unfold afterV0Branch, v0Branch. destruct (F32.gtb _ _).
  - pose proof (updateV0_candidate clus (tracker st)) as (H1 & _ & H3 & _).
    destruct (updateV0 clus (tracker st)) as [ok s1]. cbn [snd] in *.
    destruct ok; cbn [tracker].
    + pose proof (logInfo_candidate
                    (LogAttachV0 (getLayer (geomITS s1) (getSensorID clus))) s1)
        as (L1 & _ & L3 & _).
      split; [eapply sameCandidate_trans; eassumption|congruence].
    + split; assumption.
  - split; [apply sameCandidate_refl|reflexivity].
Qed.

Lemma he3Branch_candidate (clus : ITSCluster) (st : Locals) :
  sameCandidate (tracker st) (tracker (localsOf (he3Branch clus st)))
  /\ mFitter3Body (tracker (localsOf (he3Branch clus st))) = mFitter3Body (tracker st).
Proof.
  unfold he3Branch.
  pose proof (updateHe3_candidate clus (tracker st)) as (H1 & _ & H3 & _).
  destruct (updateHe3 clus (tracker st)) as [ok s1]. cbn [snd] in *.
  destruct ok; cbn [negb]; [|cbn; split; assumption].
  pose proof (recreateV0_candidate (getProng (hypV0 s1) 0) (getProng (hypV0 s1) 1) s1)
    as (R1 & R3).
  destruct (recreateV0 _ _ _ _ s1) as [r s2]. cbn [snd] in *.
  destruct r as [b|e]; cbn [localsOf tracker].
  - pose proof (logInfo_candidate
                  (LogAttachHe3 (getLayer (geomITS s2) (getSensorID clus))) s2)
      as (L1 & _ & L3 & _).
    split; [|congruence].
    eapply sameCandidate_trans; [eassumption|].
    eapply sameCandidate_trans; eassumption.
  - split; [eapply sameCandidate_trans; eassumption|congruence].
Qed.

Lemma loopBody_candidate (clus : ITSCluster) (st : Locals) :
  sameCandidate (tracker st) (tracker (localsOf (loopBody clus st)))
  /\ mFitter3Body (tracker (localsOf (loopBody clus st))) = mFitter3Body (tracker st).
Proof.
  rewrite loopBody_steps.
  pose proof (afterV0Branch_candidate clus st) as (A1 & A3).
  destruct (he3Tried clus st).
  - pose proof (he3Branch_candidate clus (afterV0Branch clus st)) as (B1 & B3).
    split; [eapply sameCandidate_trans; eassumption|congruence].
  - destruct (isProcessed (afterV0Branch clus st) =? 0); cbn [localsOf];
      split; assumption.
Qed.

Lemma attachLoop_candidate (clusters : list ITSCluster) (st : Locals) :
  sameCandidate (tracker st) (tracker (localsOf (attachLoop clusters st)))
  /\ mFitter3Body (tracker (localsOf (attachLoop clusters st))) = mFitter3Body (tracker st).
Proof.
  revert st. induction clusters as [|clus rest IH]; intros st; cbn [attachLoop].
  - cbn. split; [apply sameCandidate_refl|reflexivity].
  - pose proof (loopBody_candidate clus st) as (B1 & B3).
    destruct (loopBody clus st) as [st1|st1|e st1]; cbn [localsOf] in *;
      try (split; assumption).
    destruct (IH st1) as (I1 & I3).
    split; [eapply sameCandidate_trans; eassumption|congruence].
Qed.

(** What the second pass leaves alone. *)
Lemma secondPass_candidate (st : Locals) :
  sameCandidate (tracker st) (snd (secondPass st))
  /\ prong0 (hypV0 (snd (secondPass st))) = prong0 (hypV0 (tracker st))
  /\ prong1 (hypV0 (snd (secondPass st))) = prong1 (hypV0 (tracker st))
  /\ mFitterV0 (snd (secondPass st)) = mFitterV0 (tracker st)
  /\ mFitter3Body (snd (secondPass st)) = mFitter3Body (tracker st)
  /\ infoLog (snd (secondPass st)) = infoLog (tracker st).
Proof.
  assert (Hloop : forall cls (s : State),
            sameCandidate s (snd (refitLoop cls s))
            /\ prong0 (hypV0 (snd (refitLoop cls s))) = prong0 (hypV0 s)
            /\ prong1 (hypV0 (snd (refitLoop cls s))) = prong1 (hypV0 s)
            /\ mFitterV0 (snd (refitLoop cls s)) = mFitterV0 s
            /\ mFitter3Body (snd (refitLoop cls s)) = mFitter3Body s).
  { induction cls as [|clus rest IH]; intros s; cbn [refitLoop].
    - cbn. repeat split.
    - pose proof (updateV0_candidate clus s) as (U1 & U2 & U3 & U4 & U5).
      destruct (updateV0 clus s) as [ok s1]. cbn [snd] in *.
      destruct ok; cbn [negb snd].
      + destruct (IH s1) as (I1 & I2 & I3 & I4 & I5).
        split; [eapply sameCandidate_trans; eassumption|].
        repeat split; congruence.
      + split; [assumption|]. repeat split; assumption. }
  pose proof (secondPass_setup st) as [_ Hlog].
  split; [|split; [|split; [|split; [|split]]]]; try exact Hlog;
    unfold secondPass; destruct (0 <? _); cbn [snd];
    try reflexivity; try apply sameCandidate_refl.
  - destruct (Hloop (rev (ITSclusV0 st))
                (set_hypV0 (setV0Track (resetCovariance (v0Track (hypV0 (tracker st))))
                              (hypV0 (tracker st))) (tracker st))) as (H & _).
    eapply sameCandidate_trans; [|exact H]. repeat split.
  - destruct (Hloop (rev (ITSclusV0 st))
                (set_hypV0 (setV0Track (resetCovariance (v0Track (hypV0 (tracker st))))
                              (hypV0 (tracker st))) (tracker st))) as (_ & H & _).
    rewrite H. reflexivity.
  - destruct (Hloop (rev (ITSclusV0 st))
                (set_hypV0 (setV0Track (resetCovariance (v0Track (hypV0 (tracker st))))
                              (hypV0 (tracker st))) (tracker st))) as (_ & _ & H & _).
    rewrite H. reflexivity.
  - destruct (Hloop (rev (ITSclusV0 st))
                (set_hypV0 (setV0Track (resetCovariance (v0Track (hypV0 (tracker st))))
                              (hypV0 (tracker st))) (tracker st))) as (_ & _ & _ & H & _).
    rewrite H. reflexivity.
  - destruct (Hloop (rev (ITSclusV0 st))
                (set_hypV0 (setV0Track (resetCovariance (v0Track (hypV0 (tracker st))))
                              (hypV0 (tracker st))) (tracker st))) as (_ & _ & _ & _ & H).
    rewrite H. reflexivity.
Qed.

(** X16. The second pass works on the track of the V0 only: the daughters,
    the two fitters, the log, the mother track and the configuration are what
    they were after the first loop, whether the pass succeeds or not. *)
Theorem second_pass_touches_v0_track_only (st : Locals) :
  sameCandidate (tracker st) (snd (secondPass st))
  /\ prong0 (hypV0 (snd (secondPass st))) = prong0 (hypV0 (tracker st))
  /\ prong1 (hypV0 (snd (secondPass st))) = prong1 (hypV0 (tracker st))
  /\ mFitterV0 (snd (secondPass st)) = mFitterV0 (tracker st)
  /\ mFitter3Body (snd (secondPass st)) = mFitter3Body (tracker st)
  /\ infoLog (snd (secondPass st)) = infoLog (tracker st).
Proof. exact (secondPass_candidate st). Qed.

(** X2. [process()] changes the candidate, the fitters and the log, and
    nothing else: the clusters, the geometry, the decay radius, the chi-square
    cut, the field, the number of clusters to match and the mother track are
    the same afterwards, and the candidate still refers to the same two
    daughters, however [process()] ends. *)
Theorem process_keeps_candidate (s : State) :
  sameCandidate s (snd (process s)).
Proof.
  unfold process.
  pose proof (attachLoop_candidate (hyperClusters s) (initLocals s)) as (A1 & _).
  cbn [initLocals tracker] in A1.
  destruct (attachLoop (hyperClusters s) (initLocals s)) as [st|st|e st];
    cbn [localsOf snd] in *; try assumption.
  pose proof (secondPass_candidate st) as (S1 & _).
  destruct (secondPass st) as [ok s1]. cbn [snd] in *.
  destruct ok; cbn [negb snd]; [|eapply sameCandidate_trans; eassumption].
  unfold finalRefit.
  pose proof (Refit3Body_candidate s1) as (R1 & _).
  destruct (Refit3Body s1) as [r s2]. cbn [snd] in *.
  assert (H2 : sameCandidate s s2).
  { eapply sameCandidate_trans; [eassumption|].
    eapply sameCandidate_trans; eassumption. }
  destruct r as [b|e]; cbn [snd]; [|assumption].
  destruct b; cbn [negb snd]; [|assumption].
  eapply sameCandidate_trans; [exact H2|]. apply logInfo_candidate.
Qed.

(** X3. A candidate that is rejected in the first loop or in the second pass
    never reaches the 3-body fitter: [process()] returns false and
    [mFitter3Body] is as it was. *)
Theorem rejected_before_refit_spares_fitter (s : State) :
  rejectedBeforeRefit s ->
  fst (process s) = Normal false
  /\ mFitter3Body (snd (process s)) = mFitter3Body s.
Proof.
  unfold rejectedBeforeRefit, process.
  pose proof (attachLoop_candidate (hyperClusters s) (initLocals s)) as (_ & A3).
  cbn [initLocals tracker] in A3.
  destruct (attachLoop (hyperClusters s) (initLocals s)) as [st|st|e st];
    cbn [localsOf] in *; intros H.
  - pose proof (secondPass_candidate st) as (_ & _ & _ & _ & S3 & _).
    destruct (secondPass st) as [ok s1]. cbn [fst snd] in *. subst ok.
    cbn. split; [reflexivity|congruence].
  - cbn. split; [reflexivity|assumption].
  - contradiction.
Qed.

End FrameProperties.

Lemma rejected_before_refit_spares_fitter_witness :
  fst (HyperTracker.process Scenario.firstRefused) = Normal false
  /\ HyperTracker.mFitter3Body (snd (HyperTracker.process Scenario.firstRefused)) = Toy.fitOK.
Proof.
  assert (H : rejectedBeforeRefit Scenario.firstRefused) by (vm_compute; exact I).
  exact (rejected_before_refit_spares_fitter Scenario.firstRefused H).
Defined.

(* ------------------------------------------------------------------ *)
(** ** Further properties: the first loop, hit by hit *)

Section LoopProperties.

Context {Kin F2 F3 : Type} {TO : TrackOps Kin} {FO : FitterOps Kin F2 F3}.

Import HyperTracker.

#[local] Abbreviation State := (@HyperTracker.State Kin F2 F3).
#[local] Abbreviation Locals := (@HyperTracker.Locals Kin F2 F3).

(** A hit that is attached to the V0 is not tried on the daughter. *)
Lemma v0Attached_excludes_he3 (clus : ITSCluster) (st : Locals) :
  v0Attached clus st = true -> he3Attached clus st = false.
Proof.
  intros Hv0. unfold he3Attached.
  destruct (he3Tried clus st) eqn:E; [|reflexivity].
  apply he3Tried_needs_flag in E as [_ E]. congruence.
Qed.

(** The three ways in which a pass reaches the next hit. *)
Lemma loopBody_Continue_cases (clus : ITSCluster) (st st' : Locals) :
  loopBody clus st = Continue st' ->
  (v0Attached clus st = true
   /\ tryDaughter st' = false
   /\ ITSclusV0 st' = ITSclusV0 st ++ [clus]
   /\ infoLog (tracker st')
      = infoLog (tracker st) ++ [LogAttachV0 (layerOf (tracker st) clus)])
  \/ (v0Attached clus st = false
      /\ he3Attached clus st = true
      /\ tryDaughter st = true
      /\ tryDaughter st' = true
      /\ ITSclusV0 st' = ITSclusV0 st
      /\ infoLog (tracker st')
         = infoLog (tracker st) ++ [LogAttachHe3 (layerOf (tracker st) clus)])
  \/ (v0Attached clus st = false
      /\ he3Attached clus st = false
      /\ tryDaughter st' = tryDaughter st
      /\ ITSclusV0 st' = ITSclusV0 st
      /\ isProcessed st' = isProcessed st
      /\ infoLog (tracker st') = infoLog (tracker st)).
Proof.
  rewrite loopBody_steps. intros Hb.
  destruct (he3Tried clus st) eqn:Htried.
  - right. left.
    pose proof (he3Tried_needs_flag clus st Htried) as [Hflag Hv0].
    pose proof (afterV0Branch_cases clus st) as [Hs Hc]. rewrite Hv0 in Hc.
    destruct Hc as (C1 & C2 & C3 & C4).
    unfold he3Attached. rewrite Htried. cbn [andb].
    unfold he3Branch in Hb.
    pose proof (updateHe3_setup clus (tracker (afterV0Branch clus st))) as [Us Ul].
    destruct (updateHe3 clus (tracker (afterV0Branch clus st))) as [ok s1].
    cbn [fst snd] in *. destruct ok; cbn [negb] in Hb; [|discriminate].
    pose proof (recreateV0_setup (getProng (hypV0 s1) 0) (getProng (hypV0 s1) 1)
                  (prongID0 (hypV0 s1)) (prongID1 (hypV0 s1)) s1) as [Rs Rl].
    destruct (recreateV0 _ _ _ _ s1) as [r s2]. cbn [snd] in *.
    destruct r as [b|e]; [|discriminate]. injection Hb as <-.
    cbn [tracker tryDaughter ITSclusV0 logInfo infoLog].
    repeat split; try congruence.
    unfold layerOf.
    destruct Hs as (_ & G1 & _), Us as (_ & G2 & _), Rs as (_ & G3 & _).
    rewrite Rl, Ul, C4, G3, G2, G1. reflexivity.
  - destruct (isProcessed (afterV0Branch clus st) =? 0); [discriminate|].
    injection Hb as <-.
    pose proof (afterV0Branch_cases clus st) as [Hs Hc].
    destruct (v0Attached clus st) eqn:Hv0.
    + left. destruct Hc as (C1 & C2 & _).
      split; [reflexivity|]. split; [assumption|]. split; [assumption|].
      unfold afterV0Branch, v0Attached, v0Branch in *.
      destruct (F32.gtb _ _); [|discriminate Hv0]. cbn [andb] in Hv0.
      pose proof (updateV0_setup clus (tracker st)) as [(_ & G & _) Ul].
      destruct (updateV0 clus (tracker st)) as [ok s1]. cbn [fst snd] in *. subst ok.
      cbn [tracker logInfo infoLog]. unfold layerOf. rewrite Ul, G. reflexivity.
    + right. right. destruct Hc as (C1 & C2 & C3 & C4).
      split; [reflexivity|]. unfold he3Attached. rewrite Htried.
      repeat split; assumption.
Qed.

(** [process()] returns true only at the end of its three stages. *)
Lemma process_true_stages (s : State) :
  fst (process s) = Normal true ->
  exists (st : Locals) (s1 : State),
    attachLoop (hyperClusters s) (initLocals s) = Continue st
    /\ secondPass st = (true, s1)
    /\ fst (Refit3Body s1) = Normal true
    /\ nClusMatching s <= isProcessed st.
Proof.
  unfold process.
  pose proof (attachLoop_candidate (hyperClusters s) (initLocals s))
    as (((_ & _ & _ & _ & _ & N1) & _) & _).
  destruct (attachLoop (hyperClusters s) (initLocals s)) as [st|st|e st];
    try discriminate.
  cbn [localsOf initLocals tracker] in N1.
  pose proof (secondPass_setup st) as [(_ & _ & _ & _ & _ & N2) _].
  destruct (secondPass st) as [ok s1] eqn:Hsp. cbn [snd] in N2.
  destruct ok; cbn [negb]; [|discriminate].
  unfold finalRefit.
  pose proof (Refit3Body_setup s1) as [(_ & _ & _ & _ & _ & N3) _].
  destruct (Refit3Body s1) as [r s2] eqn:Hrf. cbn [fst snd] in *.
  destruct r as [b|e]; [|discriminate].
  destruct b; cbn [negb fst]; [|discriminate].
  intros H. injection H as H. apply Z.leb_le in H.
  exists st, s1. split; [reflexivity|]. split; [exact Hsp|].
  split; [rewrite Hrf; reflexivity|].
  rewrite <- N1, <- N2, <- N3. exact H.
Qed.

(** X5. A matched candidate has every cluster of its track attached. When
    [nClusMatching] is the number of clusters, as the constructors set it, and
    [process()] returns true, every hit of the track was attached in the first
    loop, to the V0 or to the daughter, and none to both. *)
Theorem matched_attaches_every_hit (s : State) :
  Z.of_nat (length (hyperClusters s)) < 2147483648 ->
  nClusMatching s = Z.of_nat (length (hyperClusters s)) ->
  fst (process s) = Normal true ->
  forall (pre post : list ITSCluster) (clus : ITSCluster),
    hyperClusters s = pre ++ clus :: post ->
    exists before : Locals,
      attachLoop pre (initLocals s) = Continue before
      /\ (v0Attached clus before = true \/ he3Attached clus before = true)
      /\ v0Attached clus before && he3Attached clus before = false.
Proof.
  intros Hlen Hn Htrue pre post clus Hc.
  apply process_true_stages in Htrue as (st & s1 & Hloop & _ & _ & Hmin).
  rewrite Hc in Hloop, Hlen, Hn.
  rewrite length_app in Hlen, Hn. cbn [length] in Hlen, Hn.
  destruct (attachLoop_Continue_prefix pre (clus :: post) _ _ Hloop)
    as (before & Hpre & Hrest).
  cbn [attachLoop] in Hrest.
  destruct (loopBody clus before) as [after|after|e after] eqn:Hb; try discriminate.
  pose proof (attachLoop_Continue pre _ _ Hpre) as Ipre.
  cbn [initLocals isProcessed] in Ipre.
  destruct Ipre as (_ & _ & P3 & _); [lia|lia|].
  assert (Hone : attachLoop [clus] before = Continue after)
    by (cbn [attachLoop]; rewrite Hb; reflexivity).
  pose proof (attachLoop_Continue [clus] _ _ Hone) as Ione.
  destruct Ione as (_ & _ & O3 & _); [lia|cbn [length]; lia|]. cbn [length] in O3.
  pose proof (attachLoop_Continue post _ _ Hrest) as Ipost.
  destruct Ipost as (_ & _ & Q3 & _); [lia|lia|].
  exists before. split; [assumption|].
  destruct (loopBody_Continue_cases clus before after Hb)
    as [(A & _)|[(A1 & A2 & _)|(_ & _ & _ & _ & A & _)]].
  - split; [left; assumption|]. rewrite (v0Attached_excludes_he3 _ _ A).
    apply andb_false_r.
  - split; [right; assumption|]. rewrite A1. reflexivity.
  - exfalso. lia.
Qed.

(** X7. The order of the attachments. In a first loop that runs to its end,
    every hit attached to the daughter comes before every hit attached to the
    V0: the lines that the loop adds to the log are lines of the daughter
    followed by one line for each cluster of [ITSclusV0], in the order of
    that list and with the layer of the cluster. *)
Theorem attach_log_order (s : State) (st : Locals) :
  attachLoop (hyperClusters s) (initLocals s) = Continue st ->
  exists he3Layers : list Z,
    infoLog (tracker st)
    = infoLog s ++ map LogAttachHe3 he3Layers
               ++ map (fun c => LogAttachV0 (layerOf s c)) (ITSclusV0 st).
Proof.
  assert (Hgen : forall cls (a b : Locals) (hl : list Z),
            attachLoop cls a = Continue b ->
            geomITS (tracker a) = geomITS s ->
            (tryDaughter a = true -> ITSclusV0 a = []) ->
            infoLog (tracker a)
            = infoLog s ++ map LogAttachHe3 hl
                       ++ map (fun c => LogAttachV0 (layerOf s c)) (ITSclusV0 a) ->
            exists hl',
              infoLog (tracker b)
              = infoLog s ++ map LogAttachHe3 hl'
                         ++ map (fun c => LogAttachV0 (layerOf s c)) (ITSclusV0 b)).
  { induction cls as [|clus rest IH]; intros a b hl Hl Hg Hflag Hlog.
    - cbn in Hl. injection Hl as <-. exists hl. assumption.
    - cbn [attachLoop] in Hl.
      destruct (loopBody clus a) as [a1|a1|e a1] eqn:Hb; try discriminate.
      pose proof (loopBody_Continue clus a a1 Hb) as ((_ & G & _) & _).
      assert (Hlay : layerOf (tracker a) clus = layerOf s clus)
        by (unfold layerOf; rewrite Hg; reflexivity).
      destruct (loopBody_Continue_cases clus a a1 Hb)
        as [(_ & A2 & A3 & A4)|[(_ & _ & B3 & B4 & B5 & B6)|(_ & _ & C3 & C4 & _ & C6)]].
      + apply (IH a1 b hl Hl); [congruence|congruence|].
        rewrite A4, A3, Hlog, Hlay, map_app. cbn [map].
        rewrite <- !app_assoc. reflexivity.
      + apply (IH a1 b (hl ++ [layerOf s clus]) Hl); [congruence|intros _; rewrite B5; auto|].
        rewrite B6, B5, Hlog, Hlay, (Hflag B3), map_app. cbn [map].
        rewrite !app_nil_r, <- app_assoc. reflexivity.
      + apply (IH a1 b hl Hl); [congruence|rewrite C3, C4; assumption|].
        rewrite C6, C4. assumption. }
  intros Hloop.
  apply (Hgen _ _ _ [] Hloop); [reflexivity|reflexivity|].
  cbn. rewrite app_nil_r. reflexivity.
Qed.

(** X6. A track without clusters. With an empty [hyperClusters] the loops do
    nothing and [process()] is the final refit alone: it returns true exactly
    when the 3-body refit succeeds and [nClusMatching] is not positive. A
    tracker that the second constructor builds on a track without clusters
    is matched as soon as its 3-body refit succeeds. *)
Theorem process_without_clusters (s : State) :
  hyperClusters s = [] ->
  (fst (process s) = Normal true <->
     fst (Refit3Body s) = Normal true /\ nClusMatching s <= 0)
  /\ (rejectedBeforeRefit s -> False)
  /\ (forall (dflt : State) (motherTrack : TrackParCov Kin) (v0 : V0 Kin)
             (gman : GeometryTGeo),
        fst (process (HyperTracker_ctor' dflt motherTrack v0 [] gman)) = Normal true <->
        fst (Refit3Body (HyperTracker_ctor' dflt motherTrack v0 [] gman)) = Normal true).
Proof.
  intros He.
  assert (Hgen : forall x : State, hyperClusters x = [] ->
            (fst (process x) = Normal true <->
             fst (Refit3Body x) = Normal true /\ nClusMatching x <= 0)).
  { intros x Hx. unfold process, initLocals. rewrite Hx. cbn [attachLoop].
    unfold secondPass, finalRefit. cbn [ITSclusV0 length tracker isProcessed].
    change (0 <? Z.of_nat 0) with false. cbn iota beta zeta.
    cbn [negb tracker isProcessed].
    pose proof (Refit3Body_setup x) as [(_ & _ & _ & _ & _ & N) _].
    destruct (Refit3Body x) as [r x1]. cbn [fst snd] in *.
    destruct r as [b|e].
    - destruct b; cbn.
      + rewrite N. split.
        * intros H. injection H as H. apply Z.leb_le in H.
          split; [reflexivity|assumption].
        * intros [_ H]. apply Z.leb_le in H. rewrite H. reflexivity.
      + split; [intros H; discriminate H|intros [H _]; discriminate H].
    - cbn. split; [intros H; discriminate H|intros [H _]; discriminate H]. }
  split; [exact (Hgen s He)|]. split.
  - unfold rejectedBeforeRefit, initLocals. rewrite He. cbn [attachLoop].
    unfold secondPass. cbn. discriminate.
  - intros dflt motherTrack v0 gman. rewrite Hgen by reflexivity.
    split; [intros [H _]; exact H|]. intros H. split; [exact H|].
    cbn. vm_compute. discriminate.
Qed.

End LoopProperties.

Lemma matched_attaches_every_hit_witness :
  exists before : @HyperTracker.Locals Toy.Kin Toy.Fitter Toy.Fitter,
    HyperTracker.attachLoop [Scenario.cOuter] (HyperTracker.initLocals Scenario.matched)
    = HyperTracker.Continue before
    /\ (v0Attached Scenario.cInner before = true \/ he3Attached Scenario.cInner before = true)
    /\ v0Attached Scenario.cInner before && he3Attached Scenario.cInner before = false.
Proof.
  assert (Hlen : Z.of_nat (length (HyperTracker.hyperClusters Scenario.matched)) < 2147483648)
    by reflexivity.
  assert (Htrue : fst (HyperTracker.process Scenario.matched) = Normal true)
    by (vm_compute; reflexivity).
  exact (matched_attaches_every_hit Scenario.matched Hlen eq_refl Htrue
           [Scenario.cOuter] [] Scenario.cInner eq_refl).
Defined.

(** In [daughterThenV0] the first hit goes to the daughter and the second to
    the V0. *)
Lemma attach_log_order_witness :
  exists he3Layers : list Z,
    HyperTracker.infoLog
      (HyperTracker.tracker
         (Scenario.localsAfter [MoreScenarios.cDaughterOnly; Scenario.cBand]
            MoreScenarios.daughterThenV0))
    = HyperTracker.infoLog MoreScenarios.daughterThenV0
      ++ map HyperTracker.LogAttachHe3 he3Layers
      ++ map (fun c => HyperTracker.LogAttachV0 (layerOf MoreScenarios.daughterThenV0 c))
             (HyperTracker.ITSclusV0
                (Scenario.localsAfter [MoreScenarios.cDaughterOnly; Scenario.cBand]
                   MoreScenarios.daughterThenV0)).
Proof.
  assert (Hloop : HyperTracker.attachLoop
                    (HyperTracker.hyperClusters MoreScenarios.daughterThenV0)
                    (HyperTracker.initLocals MoreScenarios.daughterThenV0)
                  = HyperTracker.Continue
                      (Scenario.localsAfter [MoreScenarios.cDaughterOnly; Scenario.cBand]
                         MoreScenarios.daughterThenV0))
    by (vm_compute; reflexivity).
  exact (attach_log_order MoreScenarios.daughterThenV0 _ Hloop).
Defined.

Lemma process_without_clusters_witness :
  fst (HyperTracker.process MoreScenarios.noClusters) = Normal true.
Proof.
  assert (He : HyperTracker.hyperClusters MoreScenarios.noClusters = []) by reflexivity.
  assert (Hr : fst (HyperTracker.Refit3Body MoreScenarios.noClusters) = Normal true)
    by (vm_compute; reflexivity).
  assert (Hn : HyperTracker.nClusMatching MoreScenarios.noClusters <= 0)
    by (vm_compute; discriminate).
  exact (proj2 (proj1 (process_without_clusters MoreScenarios.noClusters He)) (conj Hr Hn)).
Defined.

(* ------------------------------------------------------------------ *)
(** ** Further properties: exceptions, the constructor and the 3-body refit *)

Section CandidateProperties.

Context {Kin F2 F3 : Type} {TO : TrackOps Kin} {FO : FitterOps Kin F2 F3}.

Import HyperTracker.

#[local] Abbreviation State := (@HyperTracker.State Kin F2 F3).
#[local] Abbreviation Locals := (@HyperTracker.Locals Kin F2 F3).

Lemma recreateV0_catches (p n : TrackParCov Kin) (pI nI : Z) (s : State) :
  fst (recreateV0 p n pI nI s) <> Raised RuntimeError.
Proof.
  unfold recreateV0. destruct (process2 p n (mFitterV0 s)) as [r f].
  destruct r as [nCand|e].
  - destruct (nCand =? 0); [cbn; discriminate|].
    destruct (propagateTracksToVertex2 f) as [b f']. cbn. discriminate.
  - destruct e; cbn; discriminate.
Qed.

Lemma Refit3Body_catches (s : State) :
  fst (Refit3Body s) <> Raised RuntimeError.
Proof.
  unfold Refit3Body. destruct (process3 _ _ _ (mFitter3Body s)) as [r f].
  destruct r as [nCand|e].
  - destruct (nCand =? 0); [cbn; discriminate|].
    destruct (propagateTracksToVertex3 f) as [b f']. cbn. discriminate.
  - destruct e; cbn; discriminate.
Qed.

Lemma attachLoop_catches (clusters : list ITSCluster) (st st' : Locals) (e : Exn) :
  attachLoop clusters st = Throws e st' -> e = OtherException.
Proof.
  revert st. induction clusters as [|clus rest IH]; intros st; cbn [attachLoop].
  - discriminate.
  - destruct (loopBody clus st) as [st1|st1|e1 st1] eqn:Hb.
    + apply IH.
    + discriminate.
    + intros H. injection H as -> _.
      rewrite loopBody_steps in Hb.
      destruct (he3Tried clus st);
        [|destruct (isProcessed (afterV0Branch clus st) =? 0); discriminate].
      unfold he3Branch in Hb.
      destruct (updateHe3 clus (tracker (afterV0Branch clus st))) as [ok s1].
      destruct ok; cbn [negb] in Hb; [|discriminate].
      pose proof (recreateV0_catches (getProng (hypV0 s1) 0) (getProng (hypV0 s1) 1)
                    (prongID0 (hypV0 s1)) (prongID1 (hypV0 s1)) s1) as Hc.
      destruct (recreateV0 _ _ _ _ s1) as [r s2]. cbn [fst] in Hc.
      destruct r as [b|e']; [discriminate|]. injection Hb as -> _.
      destruct e; [exfalso; apply Hc; reflexivity|reflexivity].
Qed.

(** X4. No [std::runtime_error] of a fitter leaves the tracker: neither
    [process()] nor the constructor that refits the V0 ends with that
    exception, whatever the two fitters throw. *)
Theorem runtime_error_never_escapes :
  (forall s : State, fst (process s) <> Raised RuntimeError)
  /\ (forall (dflt : State) (motherTrack : TrackParCov Kin) (v0 : V0 Kin)
             (motherClusters : list ITSCluster) (gman : GeometryTGeo) (fitterV0 : F2),
        fst (HyperTracker_ctor dflt motherTrack v0 motherClusters gman fitterV0)
        <> Raised RuntimeError).
Proof.
  split.
  - intros s. unfold process.
    destruct (attachLoop (hyperClusters s) (initLocals s)) as [st|st|e st] eqn:Hl.
    + destruct (secondPass st) as [ok s1]. destruct ok; cbn [negb]; [|cbn; discriminate].
      unfold finalRefit. pose proof (Refit3Body_catches s1) as Hc.
      destruct (Refit3Body s1) as [r s2]. cbn [fst] in Hc.
      destruct r as [b|e]; [destruct b; cbn; discriminate|].
      cbn. intros H. apply Hc. injection H as ->. reflexivity.
    + cbn. discriminate.
    + apply attachLoop_catches in Hl. subst e. cbn. discriminate.
  - intros dflt motherTrack v0 motherClusters gman fitterV0. unfold HyperTracker_ctor.
    match goal with
    | |- context [recreateV0 ?p ?n ?a ?b ?x] =>
        pose proof (recreateV0_catches p n a b x) as Hc;
        destruct (recreateV0 p n a b x) as [r sr]
    end.
    cbn [fst] in Hc. destruct r as [b|e]; cbn [fst]; [discriminate|].
    intros H. apply Hc. injection H as ->. reflexivity.
Qed.

(** X8. After the constructor that refits the V0, the candidate is either
    the V0 it was given, when the refit fails, which the log then says, or a
    rebuilt V0 with the HyperTriton hypothesis, absolute charge 1 and the
    identifiers of the daughters of the V0 it was given; it is never the
    default candidate of the class. The mother track, the clusters, the
    geometry and the decay radius are those of the arguments, and the
    chi-square cut and the field keep their defaults. *)
Theorem constructor_candidate (dflt : State) (motherTrack : TrackParCov Kin)
    (v0 : V0 Kin) (motherClusters : list ITSCluster) (gman : GeometryTGeo)
    (fitterV0 : F2) (s' : State) :
  HyperTracker_ctor dflt motherTrack v0 motherClusters gman fitterV0 = (Normal tt, s') ->
  hyperTrack s' = motherTrack
  /\ hyperClusters s' = motherClusters
  /\ geomITS s' = gman
  /\ mInitR2 s' = calcR2 (v0Track v0)
  /\ mMaxChi2 s' = mMaxChi2 dflt
  /\ mBz s' = mBz dflt
  /\ ((hypV0 s' = v0
       /\ infoLog s' = infoLog dflt ++ [LogOriginalRadius (calcR2 (v0Track v0));
                                        LogRegenerationFailed])
      \/ (pid (v0Track (hypV0 s')) = HyperTriton
          /\ absCharge (v0Track (hypV0 s')) = 1
          /\ sameProngIDs v0 (hypV0 s')
          /\ infoLog s' = infoLog dflt ++ [LogOriginalRadius (calcR2 (v0Track v0))])).
Proof.
  unfold HyperTracker_ctor, recreateV0. cbn [mFitterV0 set_mInitR2 logInfo].
  match goal with
  | |- context [process2 ?p ?n fitterV0] => destruct (process2 p n fitterV0) as [r f]
  end.
  destruct r as [nCand|e].
  - destruct (nCand =? 0).
    + cbn. intros H. injection H as <-. cbn.
      repeat split. left. split; [reflexivity|].
      rewrite <- app_assoc. reflexivity.
    + destruct (propagateTracksToVertex2 f) as [b f']. cbn.
      intros H. injection H as <-. cbn.
      repeat split. right. repeat split.
  - destruct e; cbn; [|discriminate].
    intros H. injection H as <-. cbn.
    repeat split. left. split; [reflexivity|].
    rewrite <- app_assoc. reflexivity.
Qed.

(** X9. A successful [Refit3Body] rebuilds the candidate from the vertex of
    the 3-body fitter and the summed momenta of its tracks 1 and 2, which
    become the prongs; the candidate has the HyperTriton hypothesis and
    absolute charge 1 and keeps the identifiers of its daughters. Whenever
    [Refit3Body] does not return true, the candidate is what it was. *)
Theorem Refit3Body_rebuilds_candidate (s : State) :
  (fst (Refit3Body s) = Normal true ->
   let s' := snd (Refit3Body s) in
   let propPos := getTrack3 (mFitter3Body s') 1 0 in
   let propNeg := getTrack3 (mFitter3Body s') 2 0 in
   kin (v0Track (hypV0 s'))
   = kinFromXYZPxPyPz (getPCACandidatePos3 (mFitter3Body s'))
       (sumMomenta (getPxPyPzGlo propPos) (getPxPyPzGlo propNeg))
       (calcPCACovMatrixFlat3 (mFitter3Body s') 0)
       (getCharge propPos + getCharge propNeg) HyperTriton
   /\ prong0 (hypV0 s') = propPos
   /\ prong1 (hypV0 s') = propNeg
   /\ pid (v0Track (hypV0 s')) = HyperTriton
   /\ absCharge (v0Track (hypV0 s')) = 1
   /\ sameProngIDs (hypV0 s) (hypV0 s'))
  /\ (fst (Refit3Body s) <> Normal true -> hypV0 (snd (Refit3Body s)) = hypV0 s).
Proof.
  unfold Refit3Body. destruct (process3 _ _ _ (mFitter3Body s)) as [r f].
  destruct r as [nCand|e].
  - destruct (nCand =? 0); [cbn; split; [discriminate|reflexivity]|].
    destruct (propagateTracksToVertex3 f) as [b f']. cbn. split.
    + intros _. repeat split.
    + intros H. exfalso. apply H. reflexivity.
  - destruct e; cbn; split; try discriminate; reflexivity.
Qed.

(** *** The asymmetry of a V0 at rest *)

Lemma mul_zero_zeroOrNaN (x : float) (sg : bool) :
  zeroOrNaN (F64.mul x (S754_zero sg)) = true.
Proof. destruct x; reflexivity. Qed.

Lemma add_zeroOrNaN (a b : float) :
  zeroOrNaN a = true -> zeroOrNaN b = true -> zeroOrNaN (F64.add a b) = true.
Proof.
  destruct a as [sa|sa| |sa ma ea]; try discriminate;
    destruct b as [sb|sb| |sb mb eb]; try discriminate; intros _ _;
    try reflexivity.
  destruct sa, sb; reflexivity.
Qed.

Lemma div_zeroOrNaN_zero (a : float) :
  zeroOrNaN a = true -> F64.div a (S754_zero false) = S754_nan.
Proof. destruct a; try discriminate; reflexivity. Qed.

(** X10. A V0 whose total momentum is zero has no asymmetry: [calcV0alpha]
    is NaN, whatever the momenta of the daughters, so the test [alpha > 0]
    fails and the second prong is taken as the helium track. *)
Theorem calcV0alpha_at_rest (v : V0 Kin) :
  zeroMomentum v ->
  calcV0alpha v = S754_nan /\ he3Index v = 1.
Proof.
  intros (sx & sy & sz & Hz).
  assert (Ha : calcV0alpha v = S754_nan).
  { unfold calcV0alpha. rewrite Hz.
    assert (Hdot : forall m : Vec3,
              zeroOrNaN (tvDot (toTVector3 m)
                           (toTVector3 (S754_zero sx, S754_zero sy, S754_zero sz))) = true).
    { intros [[a b] c]. unfold tvDot, toTVector3. cbn [F64.of_float].
      repeat apply add_zeroOrNaN; apply mul_zero_zeroOrNaN. }
    assert (Hmag : tvMag (toTVector3 (S754_zero sx, S754_zero sy, S754_zero sz))
                   = S754_zero false).
    { destruct sx, sy, sz; reflexivity. }
    rewrite Hmag, !div_zeroOrNaN_zero by apply Hdot. reflexivity. }
  split; [exact Ha|]. unfold he3Index. rewrite Ha. reflexivity.
Qed.

End CandidateProperties.

Lemma constructor_candidate_witness :
  exists s' : @HyperTracker.State Toy.Kin Toy.Fitter Toy.Fitter,
    HyperTracker.HyperTracker_ctor Scenario.matched (Toy.track 1 1 Toy.f3) Toy.v0
      [Scenario.cOuter] Toy.geom Toy.fitNone = (Normal tt, s')
    /\ HyperTracker.hypV0 s' = Toy.v0
    /\ HyperTracker.hyperClusters s' = [Scenario.cOuter].
Proof.
  eexists. split; [vm_compute; reflexivity|].
  match goal with
  | |- HyperTracker.hypV0 ?x = _ /\ _ =>
      assert (Hc : HyperTracker.HyperTracker_ctor Scenario.matched (Toy.track 1 1 Toy.f3)
                     Toy.v0 [Scenario.cOuter] Toy.geom Toy.fitNone = (Normal tt, x))
        by (vm_compute; reflexivity);
      pose proof (constructor_candidate _ _ _ _ _ _ _ Hc) as (_ & H2 & _)
  end.
  split; [vm_compute; reflexivity|exact H2].
Defined.

Lemma Refit3Body_rebuilds_candidate_witness :
  absCharge (v0Track (HyperTracker.hypV0 (snd (HyperTracker.Refit3Body Scenario.matched)))) = 1
  /\ prongID0 (HyperTracker.hypV0 (snd (HyperTracker.Refit3Body Scenario.matched))) = 10.
Proof.
  assert (Hr : fst (HyperTracker.Refit3Body Scenario.matched) = Normal true)
    by (vm_compute; reflexivity).
  pose proof (proj1 (Refit3Body_rebuilds_candidate Scenario.matched) Hr)
    as (_ & _ & _ & _ & H5 & H6 & _).
  split; [exact H5|exact H6].
Defined.

Lemma calcV0alpha_at_rest_witness :
  HyperTracker.calcV0alpha MoreScenarios.v0AtRest = S754_nan
  /\ HyperTracker.he3Index MoreScenarios.v0AtRest = 1.
Proof.
  apply calcV0alpha_at_rest. exists false, false, false. reflexivity.
Defined.

(* ------------------------------------------------------------------ *)
(** ** Further properties: the clusters of a track and their sizes *)

Section TrackInputProperties.

Import TrackInput.

Lemma at_index_Some_iff {A : Type} (v : list A) (i : Z) :
  (exists x, at_index v i = Some x) <-> 0 <= i < Z.of_nat (length v).
Proof.
  unfold at_index. destruct (i <? 0) eqn:E.
  - apply Z.ltb_lt in E. split; [intros (x & H); discriminate|lia].
  - apply Z.ltb_ge in E. split.
    + intros (x & H). assert (Hn : nth_error v (Z.to_nat i) <> None) by congruence.
      apply nth_error_Some in Hn. lia.
    + intros H. destruct (nth_error v (Z.to_nat i)) eqn:En; [eauto|].
      apply nth_error_None in En. lia.
Qed.

(** What the loop of [getTrackClusters] has pushed when it ends. *)
Lemma gather_Some {A : Type} (store : list A) (idxs : list Z) (firstClus : Z)
    (n : nat) (icl : Z) (outVec v : list A) :
  gather store idxs firstClus n icl outVec = Some v ->
  length v = (length outVec + n)%nat
  /\ forall j : nat, (j < n)%nat ->
       exists (k : Z) (c : A),
         at_index idxs (int_of (firstClus + (icl + Z.of_nat j))) = Some k
         /\ at_index store k = Some c
         /\ nth_error v (length outVec + j) = Some c.
Proof.
  revert icl outVec. induction n as [|n IH]; intros icl outVec; cbn [gather].
  - intros H. injection H as <-. split; [lia|]. intros j Hj. lia.
  - destruct (at_index idxs (int_of (firstClus + icl))) as [k|] eqn:Ek; [|discriminate].
    destruct (at_index store k) as [c|] eqn:Ec; [|discriminate].
    intros H. destruct (IH _ _ H) as (Hlen & Hall).
    rewrite length_app in Hlen. cbn [length] in Hlen.
    split; [lia|]. intros j Hj. destruct j as [|j].
    + exists k, c. rewrite Z.add_0_r, Nat.add_0_r. split; [assumption|].
      split; [assumption|].
      assert (Hpre : forall m i (o w : list A),
                gather store idxs firstClus m i o = Some w ->
                forall p, (p < length o)%nat -> nth_error w p = nth_error o p).
      { induction m as [|m IHm]; intros i o w; cbn [gather].
        - intros Hw. injection Hw as <-. reflexivity.
        - destruct (at_index idxs (int_of (firstClus + i))) as [k'|]; [|discriminate].
          destruct (at_index store k') as [c'|]; [|discriminate].
          intros Hw p Hp. rewrite (IHm _ _ _ Hw p) by (rewrite length_app; lia).
          apply nth_error_app1. assumption. }
      rewrite (Hpre _ _ _ _ H) by (rewrite length_app; cbn; lia).
      rewrite nth_error_app2 by lia. rewrite Nat.sub_diag. reflexivity.
    + destruct (Hall j) as (k' & c' & H1 & H2 & H3); [lia|].
      exists k', c'. rewrite length_app in H3. cbn [length] in H3.
      replace (icl + Z.of_nat (S j)) with (icl + 1 + Z.of_nat j) by lia.
      replace (length outVec + S j)%nat with (length outVec + 1 + j)%nat by lia.
      repeat split; assumption.
Qed.

(** The loop ends normally exactly when every index it meets is in range. *)
Lemma gather_succeeds {A : Type} (store : list A) (idxs : list Z) (firstClus : Z)
    (n : nat) (icl : Z) (outVec : list A) :
  (exists v, gather store idxs firstClus n icl outVec = Some v) <->
  forall j : nat, (j < n)%nat ->
    exists k : Z,
      at_index idxs (int_of (firstClus + (icl + Z.of_nat j))) = Some k
      /\ 0 <= k < Z.of_nat (length store).
Proof.
  revert icl outVec. induction n as [|n IH]; intros icl outVec; cbn [gather].
  - split; [intros _ j Hj; lia|eauto].
  - split.
    + intros (v & H).
      destruct (at_index idxs (int_of (firstClus + icl))) as [k|] eqn:Ek; [|discriminate].
      destruct (at_index store k) as [c|] eqn:Ec; [|discriminate].
      intros j Hj. destruct j as [|j].
      * exists k. rewrite Z.add_0_r. split; [assumption|].
        apply (proj1 (at_index_Some_iff store k)). eauto.
      * assert (Hex : exists v, gather store idxs firstClus n (icl + 1) (outVec ++ [c]) = Some v)
          by eauto.
        pose proof (proj1 (IH _ _) Hex) as Hrest.
        destruct (Hrest j) as (k' & H1 & H2); [lia|].
        exists k'. replace (icl + Z.of_nat (S j)) with (icl + 1 + Z.of_nat j) by lia.
        split; assumption.
    + intros Hall. destruct (Hall O) as (k & Hk & Hr); [lia|].
      rewrite Z.add_0_r in Hk. rewrite Hk.
      apply (proj2 (at_index_Some_iff store k)) in Hr as (c & Hc). rewrite Hc.
      apply (proj2 (IH _ _)). intros j Hj. destruct (Hall (S j)) as (k' & H1 & H2); [lia|].
      exists k'. replace (icl + 1 + Z.of_nat j) with (icl + Z.of_nat (S j)) by lia.
      split; assumption.
Qed.

(** X11. [getTrackClusters] returns as many clusters as the track has, the
    cluster at place [j] being the stored cluster that entry
    [firstClusterEntry + j] of the index table points to; for a track with
    no cluster, or a negative number of them, it returns the empty vector.
    It has a result exactly when each of these entries is inside the index
    table and points inside the cluster store. *)
Theorem getTrackClusters_spec (d : Input) :
  (forall v : list ITSCluster,
     getTrackClusters d = Some v ->
     length v = Z.to_nat (numberOfClusters d)
     /\ forall j : nat, (j < length v)%nat ->
          exists k : Z,
            at_index (mInputITSidxs d) (int_of (firstClusterEntry d + Z.of_nat j)) = Some k
            /\ nth_error v j = at_index (mInputITSclusters d) k)
  /\ (numberOfClusters d <= 0 -> getTrackClusters d = Some [])
  /\ ((exists v, getTrackClusters d = Some v) <->
      forall j : nat, (j < Z.to_nat (numberOfClusters d))%nat ->
        exists k : Z,
          at_index (mInputITSidxs d) (int_of (firstClusterEntry d + Z.of_nat j)) = Some k
          /\ 0 <= k < Z.of_nat (length (mInputITSclusters d))).
Proof.
  unfold getTrackClusters. split; [|split].
  - intros v H. apply gather_Some in H as (Hlen & Hall). cbn [length] in Hlen.
    split; [lia|]. intros j Hj. destruct (Hall j) as (k & c & H1 & H2 & H3); [lia|].
    exists k. cbn [length] in H3. rewrite Z.add_0_l in H1.
    split; [assumption|]. cbn [Nat.add] in H3. congruence.
  - intros Hn. replace (Z.to_nat (numberOfClusters d)) with O by lia. reflexivity.
  - split.
    + intros H j Hj. pose proof (proj1 (gather_succeeds _ _ _ _ _ _) H j Hj) as (k & H1 & H2).
      exists k. rewrite Z.add_0_l in H1. split; assumption.
    + intros H. apply (proj2 (gather_succeeds _ _ _ _ _ _)). intros j Hj.
      destruct (H j Hj) as (k & H1 & H2). exists k. rewrite Z.add_0_l.
      split; assumption.
Qed.

(** X12. The clusters and the sizes of a track go together. When the store
    of sizes is as long as the store of clusters, [getTrackClusterSizes] has
    a result whenever [getTrackClusters] has one; the two vectors have the
    same length, and at each place the size is the one stored under the index
    of the cluster at that place. *)
Theorem getTrackClusterSizes_aligned (d : Input) (clusters : list ITSCluster) :
  length (mInputClusterSizes d) = length (mInputITSclusters d) ->
  getTrackClusters d = Some clusters ->
  exists sizes : list Z,
    getTrackClusterSizes d = Some sizes
    /\ length sizes = length clusters
    /\ forall j : nat, (j < length clusters)%nat ->
         exists k : Z,
           nth_error clusters j = at_index (mInputITSclusters d) k
           /\ nth_error sizes j = at_index (mInputClusterSizes d) k
           /\ 0 <= k < Z.of_nat (length (mInputITSclusters d)).
Proof.
  intros Hlen Hcl. unfold getTrackClusters, getTrackClusterSizes in *.
  assert (Hex0 : exists v, gather (mInputITSclusters d) (mInputITSidxs d)
                             (firstClusterEntry d) (Z.to_nat (numberOfClusters d)) 0 []
                           = Some v) by eauto.
  pose proof (proj1 (gather_succeeds _ _ _ _ _ _) Hex0) as Hex.
  assert (Hsz : exists sizes, gather (mInputClusterSizes d) (mInputITSidxs d)
                                (firstClusterEntry d) (Z.to_nat (numberOfClusters d)) 0 []
                              = Some sizes).
  { apply (proj2 (gather_succeeds _ _ _ _ _ _)).
    intros j Hj. destruct (Hex j Hj) as (k & H1 & H2). exists k.
    rewrite Hlen. split; assumption. }
  destruct Hsz as (sizes & Hsz). exists sizes. split; [assumption|].
  apply gather_Some in Hcl as (L1 & A1). cbn [length Nat.add] in L1, A1.
  apply gather_Some in Hsz as (L2 & A2). cbn [length Nat.add] in L2, A2.
  split; [lia|]. intros j Hj.
  destruct (A1 j) as (k & c & K1 & K2 & K3); [lia|].
  destruct (A2 j) as (k' & c' & K4 & K5 & K6); [lia|].
  assert (k' = k) by congruence. subst k'.
  exists k. split; [congruence|]. split; [congruence|].
  apply (proj1 (at_index_Some_iff (mInputITSclusters d) k)). eauto.
Qed.

End TrackInputProperties.

Lemma getTrackClusters_spec_witness :
  exists v : list ITSCluster,
    TrackInput.getTrackClusters MoreScenarios.trackInput = Some v
    /\ length v = 3%nat.
Proof.
  assert (H : TrackInput.getTrackClusters MoreScenarios.trackInput
              = Some [Toy.cluster 4 Toy.f100 Toy.f1; Toy.cluster 2 Toy.f3 Toy.f1;
                      Toy.cluster 1 Toy.f2 Toy.f1]) by reflexivity.
  eexists. split; [exact H|].
  exact (proj1 (proj1 (getTrackClusters_spec MoreScenarios.trackInput) _ H)).
Defined.

Lemma getTrackClusterSizes_aligned_witness :
  exists sizes : list Z,
    TrackInput.getTrackClusterSizes MoreScenarios.trackInput = Some sizes
    /\ length sizes = 3%nat.
Proof.
  assert (H : TrackInput.getTrackClusters MoreScenarios.trackInput
              = Some [Toy.cluster 4 Toy.f100 Toy.f1; Toy.cluster 2 Toy.f3 Toy.f1;
                      Toy.cluster 1 Toy.f2 Toy.f1]) by reflexivity.
  destruct (getTrackClusterSizes_aligned MoreScenarios.trackInput _ eq_refl H)
    as (sizes & H1 & H2 & _).
  exists sizes. split; [exact H1|exact H2].
Defined.

(* ------------------------------------------------------------------ *)
(** ** Further properties: cluster sizes, the mother mass, the output V0 *)

Section ClusterSizeProperties.

Import TrackInput.

Context {Stream : Type}.
Variable acquirePattern : Stream -> Z * Stream.
Variable InvalidPatternID : Z.

Lemma write_at_Some {A : Type} (v v' : list A) (i : nat) (x : A) :
  write_at v i x = Some v' ->
  length v' = length v
  /\ (i < length v)%nat
  /\ nth_error v' i = Some x
  /\ forall j : nat, j <> i -> nth_error v' j = nth_error v j.
Proof.
  revert i v'. induction v as [|y rest IH]; intros i v'; cbn [write_at].
  - discriminate.
  - destruct i as [|i].
    + intros H. injection H as <-. cbn. repeat split; [lia|].
      intros j Hj. destruct j; [congruence|reflexivity].
    + destruct (write_at rest i x) as [rest'|] eqn:E; [|discriminate].
      intros H. injection H as <-. destruct (IH _ _ E) as (H1 & H2 & H3 & H4).
      cbn [length nth_error]. repeat split; [lia|lia|assumption|].
      intros j Hj. destruct j; [reflexivity|]. cbn [nth_error]. apply H4. lia.
Qed.

Lemma write_at_in_range {A : Type} (v : list A) (i : nat) (x : A) :
  (i < length v)%nat -> exists v', write_at v i x = Some v'.
Proof.
  revert i. induction v as [|y rest IH]; intros i; cbn [length write_at].
  - lia.
  - destruct i as [|i]; [eauto|]. intros Hi.
    destruct (IH i) as (rest' & ->); [lia|]. eauto.
Qed.

(** The number of clusters whose pattern is read from the stream. *)
Lemma sizesLoop_Some (mdict : TopologyDictionary) (ITSclus : list CompClusterExt)
    (iClus : nat) (vec vec' : list Z) (pattIt pattIt' : Stream) :
  sizesLoop acquirePattern InvalidPatternID mdict ITSclus iClus vec pattIt
  = Some (vec', pattIt') ->
  length vec' = length vec
  /\ (ITSclus = [] \/ (iClus + length ITSclus <= length vec)%nat)
  /\ pattIt' = skipPatterns acquirePattern
                 (length (filter (fromStream InvalidPatternID mdict) ITSclus)) pattIt
  /\ (forall j : nat, (j < iClus \/ iClus + length ITSclus <= j)%nat ->
        nth_error vec' j = nth_error vec j)
  /\ (forall (j : nat) (clus : CompClusterExt),
        nth_error ITSclus j = Some clus ->
        nth_error vec' (iClus + j)
        = Some (if fromStream InvalidPatternID mdict clus
                then fst (acquirePattern
                            (skipPatterns acquirePattern
                               (length (filter (fromStream InvalidPatternID mdict)
                                          (firstn j ITSclus))) pattIt))
                else getNpixels mdict (getPatternID clus))).
Proof.
  revert iClus vec pattIt.
  induction ITSclus as [|c rest IH]; intros iClus vec pattIt; cbn [sizesLoop].
  - intros H. injection H as <- <-. cbn [length filter skipPatterns].
    split; [reflexivity|]. split; [left; reflexivity|]. split; [reflexivity|]. split.
    + intros j _. reflexivity.
    + intros j clus Hj. destruct j; discriminate.
  - fold (fromStream InvalidPatternID mdict c).
    destruct (fromStream InvalidPatternID mdict c) eqn:Efs.
    + destruct (acquirePattern pattIt) as [npix it1] eqn:Eacq.
      destruct (write_at vec iClus npix) as [vec1|] eqn:Ew; [|discriminate].
      intros H. destruct (IH _ _ _ H) as (H1 & H2 & H3 & H4 & H5).
      destruct (write_at_Some _ _ _ _ Ew) as (W1 & W2 & W3 & W4).
      cbn [length filter]. rewrite Efs. cbn [length skipPatterns]. rewrite Eacq. cbn [snd].
      split; [lia|]. split; [right; destruct H2 as [->|H2]; cbn [length]; lia|].
      split; [assumption|]. split.
      * intros j Hj. rewrite H4 by lia. apply W4. lia.
      * intros j clus Hj. destruct j as [|j].
        -- cbn in Hj. injection Hj as <-. rewrite Efs, Nat.add_0_r.
           rewrite H4 by lia. cbn [firstn filter length skipPatterns].
           rewrite Eacq. exact W3.
        -- cbn [nth_error] in Hj. specialize (H5 j clus Hj).
           replace (iClus + S j)%nat with (S iClus + j)%nat by lia. rewrite H5.
           cbn [firstn filter]. rewrite Efs. cbn [length skipPatterns].
           rewrite Eacq. reflexivity.
    + destruct (write_at vec iClus (getNpixels mdict (getPatternID c))) as [vec1|] eqn:Ew;
        [|discriminate].
      intros H. destruct (IH _ _ _ H) as (H1 & H2 & H3 & H4 & H5).
      destruct (write_at_Some _ _ _ _ Ew) as (W1 & W2 & W3 & W4).
      cbn [length filter]. rewrite Efs.
      split; [lia|]. split; [right; destruct H2 as [->|H2]; cbn [length]; lia|].
      split; [assumption|]. split.
      * intros j Hj. rewrite H4 by lia. apply W4. lia.
      * intros j clus Hj. destruct j as [|j].
        -- cbn in Hj. injection Hj as <-. rewrite Efs, Nat.add_0_r.
           rewrite H4 by lia. exact W3.
        -- cbn [nth_error] in Hj. specialize (H5 j clus Hj).
           replace (iClus + S j)%nat with (S iClus + j)%nat by lia. rewrite H5.
           cbn [firstn filter]. rewrite Efs. reflexivity.
Qed.

Lemma sizesLoop_in_range (mdict : TopologyDictionary) (ITSclus : list CompClusterExt)
    (iClus : nat) (vec : list Z) (pattIt : Stream) :
  (iClus + length ITSclus <= length vec)%nat ->
  exists r, sizesLoop acquirePattern InvalidPatternID mdict ITSclus iClus vec pattIt = Some r.
Proof.
  revert iClus vec pattIt.
  induction ITSclus as [|c rest IH]; intros iClus vec pattIt; cbn [sizesLoop length].
  - eauto.
  - intros Hl.
    match goal with
    | |- context [let '(_, _) := ?e in _] => destruct e as [npix it1]
    end.
    destruct (write_at_in_range vec iClus npix) as (vec1 & Ew); [lia|]. rewrite Ew.
    apply IH. apply write_at_Some in Ew as (W1 & _). lia.
Qed.

(** X13. [getClusterSizes] completes exactly when [clusSizeVec] has an entry
    for every cluster. It then keeps the length of the vector and the entries
    behind the clusters, writes for each cluster of the dictionary the number
    of pixels that the dictionary gives, and for each cluster with the
    invalid identifier or with a group identifier the number of pixels of the
    next pattern of the stream; the iterator ends behind as many patterns as
    there are such clusters. *)
Theorem getClusterSizes_spec (clusSizeVec : list Z) (ITSclus : list CompClusterExt)
    (pattIt : Stream) (mdict : TopologyDictionary) :
  ((exists r, getClusterSizes acquirePattern InvalidPatternID clusSizeVec ITSclus pattIt mdict
              = Some r)
   <-> (length ITSclus <= length clusSizeVec)%nat)
  /\ forall (vec' : list Z) (pattIt' : Stream),
       getClusterSizes acquirePattern InvalidPatternID clusSizeVec ITSclus pattIt mdict
       = Some (vec', pattIt') ->
       length vec' = length clusSizeVec
       /\ pattIt' = skipPatterns acquirePattern
                      (length (filter (fromStream InvalidPatternID mdict) ITSclus)) pattIt
       /\ (forall j : nat, (length ITSclus <= j)%nat ->
             nth_error vec' j = nth_error clusSizeVec j)
       /\ (forall (j : nat) (clus : CompClusterExt),
             nth_error ITSclus j = Some clus ->
             nth_error vec' j
             = Some (if fromStream InvalidPatternID mdict clus
                     then fst (acquirePattern
                                 (skipPatterns acquirePattern
                                    (length (filter (fromStream InvalidPatternID mdict)
                                               (firstn j ITSclus))) pattIt))
                     else getNpixels mdict (getPatternID clus))).
Proof.
  unfold getClusterSizes. split.
  - split.
    + intros ([vec' it'] & H). apply sizesLoop_Some in H as (_ & [->|H] & _);
        [cbn; lia|lia].
    + intros H. apply sizesLoop_in_range. lia.
  - intros vec' pattIt' H. apply sizesLoop_Some in H as (H1 & H2 & H3 & H4 & H5).
    split; [assumption|]. split; [assumption|]. split.
    + intros j Hj. apply H4. lia.
    + intros j clus Hj. exact (H5 j clus Hj).
Qed.

End ClusterSizeProperties.

(** X14. [calcMotherMass] does not depend on the order of the two daughters.
    Exchanging the momentum and the PID of the first daughter with those of
    the second gives NaN exactly when the original order gives NaN, and
    otherwise the same double. Which NaN comes out is not compared. *)
Theorem calcMotherMass_symmetric (getMass2 : PID -> float)
    (p2Mother p2DauFirst p2DauSecond : float) (pidDauFirst pidDauSecond : PID) :
  (TrackInput.calcMotherMass getMass2 p2Mother p2DauFirst p2DauSecond
     pidDauFirst pidDauSecond = S754_nan
   <-> TrackInput.calcMotherMass getMass2 p2Mother p2DauSecond p2DauFirst
         pidDauSecond pidDauFirst = S754_nan)
  /\ (TrackInput.calcMotherMass getMass2 p2Mother p2DauFirst p2DauSecond
        pidDauFirst pidDauSecond <> S754_nan ->
      TrackInput.calcMotherMass getMass2 p2Mother p2DauFirst p2DauSecond
        pidDauFirst pidDauSecond
      = TrackInput.calcMotherMass getMass2 p2Mother p2DauSecond p2DauFirst
          pidDauSecond pidDauFirst).
Proof.
  assert (H : TrackInput.calcMotherMass getMass2 p2Mother p2DauFirst p2DauSecond
                pidDauFirst pidDauSecond
              = TrackInput.calcMotherMass getMass2 p2Mother p2DauSecond p2DauFirst
                  pidDauSecond pidDauFirst).
  { unfold TrackInput.calcMotherMass, F64.add.
    rewrite (SFadd_comm F64.prec F64.emax
               (F64.sqrt (SFadd F64.prec F64.emax p2DauFirst (getMass2 pidDauFirst)))).
    reflexivity. }
  rewrite <- H. split; [tauto|reflexivity].
Qed.

Lemma calcMotherMass_symmetric_witness :
  TrackInput.calcMotherMass MoreScenarios.mass2 (F64.of_float Toy.f1)
    (F64.of_float Toy.f2) (F64.of_float Toy.f3) Helium3 Pion
  = TrackInput.calcMotherMass MoreScenarios.mass2 (F64.of_float Toy.f1)
      (F64.of_float Toy.f3) (F64.of_float Toy.f2) Pion Helium3.
Proof.
  apply (proj2 (calcMotherMass_symmetric MoreScenarios.mass2 (F64.of_float Toy.f1)
                  (F64.of_float Toy.f2) (F64.of_float Toy.f3) Helium3 Pion)).
  vm_compute. discriminate.
Defined.

Section OutputV0Properties.

Context {Kin F2 F3 : Type} {TO : TrackOps Kin} {FO : FitterOps Kin F2 F3}.

(** X15. [newV0] is an output of [StrangenessTracker::recreateV0] only: what
    it holds before the call has no influence on the result or on the fitter,
    and after a successful call it is the same V0 whatever it held, with the
    identifiers of [mV0dauIDs]. *)
Theorem recreateV0_newV0_is_output_only (posTrack negTrack : TrackParCov Kin)
    (newV0 otherV0 : V0 Kin) (s : @StrangenessTracker.State F2) :
  fst (fst (StrangenessTracker.recreateV0 posTrack negTrack newV0 s))
  = fst (fst (StrangenessTracker.recreateV0 posTrack negTrack otherV0 s))
  /\ snd (StrangenessTracker.recreateV0 posTrack negTrack newV0 s)
     = snd (StrangenessTracker.recreateV0 posTrack negTrack otherV0 s)
  /\ (fst (fst (StrangenessTracker.recreateV0 posTrack negTrack newV0 s)) = Normal true ->
      snd (fst (StrangenessTracker.recreateV0 posTrack negTrack newV0 s))
      = snd (fst (StrangenessTracker.recreateV0 posTrack negTrack otherV0 s))
      /\ prongID0 (snd (fst (StrangenessTracker.recreateV0 posTrack negTrack newV0 s)))
         = fst (StrangenessTracker.mV0dauIDs s)
      /\ prongID1 (snd (fst (StrangenessTracker.recreateV0 posTrack negTrack newV0 s)))
         = snd (StrangenessTracker.mV0dauIDs s)).
Proof.
  unfold StrangenessTracker.recreateV0.
  destruct (process2 posTrack negTrack (StrangenessTracker.mFitterV0 s)) as [r f].
  destruct r as [nCand|e].
  - destruct (nCand =? 0); [cbn; repeat split; discriminate|].
    destruct (propagateTracksToVertex2 f) as [b f'].
    destruct b; cbn; repeat split; discriminate.
  - destruct e; cbn; repeat split; discriminate.
Qed.

End OutputV0Properties.

Lemma getClusterSizes_spec_witness :
  exists r : list Z * list Z,
    TrackInput.getClusterSizes MoreScenarios.acquire 255 [0; 0; 0; 0; 77]
      MoreScenarios.compClusters [11; 12; 13] MoreScenarios.dict = Some r.
Proof.
  apply (proj2 (proj1 (getClusterSizes_spec MoreScenarios.acquire 255 [0; 0; 0; 0; 77]
                         MoreScenarios.compClusters [11; 12; 13] MoreScenarios.dict))).
  cbn. lia.
Defined.

Lemma recreateV0_newV0_is_output_only_witness :
  prongID0 (snd (fst (StrangenessTracker.recreateV0 Scenario.posTrack Scenario.negTrack
                        MoreScenarios.v0AtRest (Scenario.labelled Toy.fitOK)))) = 10.
Proof.
  assert (H : fst (fst (StrangenessTracker.recreateV0 Scenario.posTrack Scenario.negTrack
                          MoreScenarios.v0AtRest (Scenario.labelled Toy.fitOK)))
              = Normal true) by (vm_compute; reflexivity).
  exact (proj1 (proj2 (proj2 (proj2 (recreateV0_newV0_is_output_only
           Scenario.posTrack Scenario.negTrack MoreScenarios.v0AtRest Toy.v0
           (Scenario.labelled Toy.fitOK))) H))).
Defined.

(* ------------------------------------------------------------------ *)
(** ** Further properties: how many hits are attached *)

Section CountProperties.

Context {Kin F2 F3 : Type} {TO : TrackOps Kin} {FO : FitterOps Kin F2 F3}.

Import HyperTracker.

#[local] Abbreviation State := (@HyperTracker.State Kin F2 F3).
#[local] Abbreviation Locals := (@HyperTracker.Locals Kin F2 F3).

Lemma attachLoop_counts (clusters : list ITSCluster) (a b : Locals) :
  attachLoop clusters a = Continue b ->
  Z.of_nat (length (ITSclusV0 b)) - Z.of_nat (length (ITSclusV0 a))
  <= attachedIn (infoLog (tracker b)) - attachedIn (infoLog (tracker a))
  <= Z.of_nat (length clusters).
Proof.
  revert a. induction clusters as [|clus rest IH]; intros a; cbn [attachLoop].
  - intros H. injection H as <-. cbn [length]. lia.
  - destruct (loopBody clus a) as [a1|a1|e a1] eqn:Hb; try discriminate.
    intros Hl. specialize (IH _ Hl). cbn [length].
    destruct (loopBody_Continue_cases clus a a1 Hb)
      as [(_ & _ & A3 & A4)|[(_ & _ & _ & _ & B5 & B6)|(_ & _ & _ & C4 & _ & C6)]].
    + rewrite A4, attachedIn_app in IH. rewrite A3, length_app in IH.
      cbn [isAttachMsg length] in IH. lia.
    + rewrite B6, attachedIn_app in IH. rewrite B5 in IH. cbn [isAttachMsg] in IH. lia.
    + rewrite C6, C4 in IH. lia.
Qed.

(** X17. In a first loop that runs to its end a hit is attached at most
    once: the number of attached hits is at most the number of clusters of
    the track and at least the number of clusters kept for the V0, and it is
    the value of the counter [isProcessed] with which [process()] decides. *)
Theorem attached_hits_bounds (s : State) (st : Locals) :
  Z.of_nat (length (hyperClusters s)) < 2147483648 ->
  attachLoop (hyperClusters s) (initLocals s) = Continue st ->
  Z.of_nat (length (ITSclusV0 st)) <= attachedHits s (tracker st)
  /\ attachedHits s (tracker st) <= Z.of_nat (length (hyperClusters s))
  /\ isProcessed st = attachedHits s (tracker st).
Proof.
  intros Hlen Hloop.
  pose proof (attachLoop_counts _ _ _ Hloop) as Hc.
  cbn [initLocals ITSclusV0 tracker length] in Hc.
  pose proof (attachLoop_Continue _ _ _ Hloop) as Hi.
  cbn [initLocals isProcessed tracker] in Hi.
  destruct Hi as (_ & _ & _ & _ & I5 & _); [lia|lia|].
  unfold attachedHits. repeat split; lia.
Qed.

End CountProperties.

Lemma attached_hits_bounds_witness :
  HyperTracker.isProcessed
    (Scenario.localsAfter [MoreScenarios.cDaughterOnly; Scenario.cBand]
       MoreScenarios.daughterThenV0)
  = attachedHits MoreScenarios.daughterThenV0
      (HyperTracker.tracker
         (Scenario.localsAfter [MoreScenarios.cDaughterOnly; Scenario.cBand]
            MoreScenarios.daughterThenV0)).
Proof.
  assert (Hlen : Z.of_nat (length (HyperTracker.hyperClusters MoreScenarios.daughterThenV0))
                 < 2147483648) by reflexivity.
  assert (Hloop : HyperTracker.attachLoop
                    (HyperTracker.hyperClusters MoreScenarios.daughterThenV0)
                    (HyperTracker.initLocals MoreScenarios.daughterThenV0)
                  = HyperTracker.Continue
                      (Scenario.localsAfter [MoreScenarios.cDaughterOnly; Scenario.cBand]
                         MoreScenarios.daughterThenV0))
    by (vm_compute; reflexivity).
  exact (proj2 (proj2 (attached_hits_bounds MoreScenarios.daughterThenV0 _ Hlen Hloop))).
Defined.
